(** * The sandbox driver of dawnyawn: [kali_driver/driver.py]

    A shallow embedding of [KaliContainer] and [KaliManager].  The driver is
    a thin, sequential client of three outside parties: the container engine
    (docker), the secure-shell library (paramiko) and the host file system.
    None of them is part of the repository, so each of their answers is read
    from an oracle: a table giving, for every moment of the run, the outcome
    the outside world would produce for a request.  A moment is the number of
    requests made so far.  Every statement below holds for every oracle.

    The second part embeds [agent/thought_engine.py]: the extraction of a
    JSON object from a reply, the rendering of a plan, and the two methods
    that ask the language model, with the chat client, the validators and
    the JSON writer taken as given. *)

From Stdlib Require Import ZArith NArith QArith Ascii String List Lia Bool.
From Stdlib.Strings Require Import Byte.
From stdpp Require Import base option list gmap strings pretty.
Import ListNotations.

Local Open Scope string_scope.
Local Open Scope Z_scope.

(** ** Python values *)

(** A Python [str] is a sequence of Unicode code points. *)
Definition codepoint := N.
Definition str := list codepoint.

(** String literals of the source are ASCII. *)
Definition lit (s : string) : str :=
  map (fun a => N_of_ascii a) (list_ascii_of_string s).

(** The values a method of the driver hands back to its caller. *)
Inductive pyval :=
| PyNone
| PyInt (z : Z)
| PyStr (s : str).

(** Exceptions that cross the driver.  [Exception_] is the builtin
    [Exception] raised with a message; the others name their class. *)
Inductive exn :=
| Exception_ (msg : str)
| FileNotFoundError (msg : str)
| AttributeError
| IndexError
| ValueError
| KeyError
| DockerException          (* docker.errors.DockerException *)
| APIError                 (* docker.errors.APIError(DockerException) *)
| NotFound                 (* docker.errors.NotFound(APIError) *)
| ImageNotFound            (* docker.errors.ImageNotFound(NotFound) *)
| ConnectionError          (* requests.exceptions.ConnectionError *)
| SSHException             (* paramiko.SSHException *)
| AuthenticationException  (* paramiko.AuthenticationException(SSHException) *)
| NoValidConnectionsError  (* paramiko.ssh_exception.NoValidConnectionsError *)
| SocketTimeout            (* socket.timeout *)
| ReadError                (* tarfile.ReadError *)
| UnicodeDecodeError.

(** [except docker.errors.NotFound] also catches the subclass. *)
Definition isinstance_NotFound (e : exn) : bool :=
  match e with
  | NotFound | ImageNotFound => true
  | _ => false
  end.

Definition isinstance_IndexError (e : exn) : bool :=
  match e with
  | IndexError => true
  | _ => false
  end.

(** ** [bytes.decode('utf-8', errors=...)]

    The decoder walks the bytes once.  A well-formed sequence gives a code
    point; an ill-formed one gives the number of bytes the error handler is
    shown (the longest prefix that could still start a well-formed sequence,
    or everything that is left when the data ends inside a sequence). *)

Inductive Utf8Item :=
| Char (c : codepoint)
| Invalid (width : nat).

Definition is_continuation (b : N) : bool :=
  ((128 <=? b) && (b <=? 191))%N.

Definition char2 (b0 b1 : N) : N :=
  (N.shiftl b0 6 + b1 - (N.shiftl 192 6 + 128))%N.

Definition char3 (b0 b1 b2 : N) : N :=
  (N.shiftl b0 12 + N.shiftl b1 6 + b2
   - (N.shiftl 224 12 + N.shiftl 128 6 + 128))%N.

Definition char4 (b0 b1 b2 b3 : N) : N :=
  (N.shiftl b0 18 + N.shiftl b1 12 + N.shiftl b2 6 + b3
   - (N.shiftl 240 18 + N.shiftl 128 12 + N.shiftl 128 6 + 128))%N.

(** Second byte of a three-byte sequence: rejects overlong forms after E0
    and surrogates after ED. *)
Definition bad_second3 (b0 b1 : N) : bool :=
  (negb (is_continuation b1)
   || (if b1 <? 160 then b0 =? 224 else b0 =? 237))%N.

(** Second byte of a four-byte sequence: rejects overlong forms after F0
    and code points above 10FFFF after F4. *)
Definition bad_second4 (b0 b1 : N) : bool :=
  (negb (is_continuation b1)
   || (if b1 <? 144 then b0 =? 240 else b0 =? 244))%N.

Fixpoint utf8_scan (bs : list N) : list Utf8Item :=
  match bs with
  | [] => []
  | b0 :: t0 =>
    if (b0 <? 128)%N then Char b0 :: utf8_scan t0
    else if (b0 <? 194)%N then Invalid 1 :: utf8_scan t0
    else if (b0 <? 224)%N then
      match t0 with
      | [] => [Invalid 1]
      | b1 :: t1 =>
        if is_continuation b1 then Char (char2 b0 b1) :: utf8_scan t1
        else Invalid 1 :: utf8_scan t0
      end
    else if (b0 <? 240)%N then
      match t0 with
      | [] => [Invalid 1]
      | b1 :: t1 =>
        if bad_second3 b0 b1 then Invalid 1 :: utf8_scan t0
        else
          match t1 with
          | [] => [Invalid 2]
          | b2 :: t2 =>
            if is_continuation b2
            then Char (char3 b0 b1 b2) :: utf8_scan t2
            else Invalid 2 :: utf8_scan t1
          end
      end
    else if (b0 <? 245)%N then
      match t0 with
      | [] => [Invalid 1]
      | b1 :: t1 =>
        if bad_second4 b0 b1 then Invalid 1 :: utf8_scan t0
        else
          match t1 with
          | [] => [Invalid 2]
          | b2 :: t2 =>
            if negb (is_continuation b2) then Invalid 2 :: utf8_scan t1
            else
              match t2 with
              | [] => [Invalid 3]
              | b3 :: t3 =>
                if is_continuation b3
                then Char (char4 b0 b1 b2 b3) :: utf8_scan t3
                else Invalid 3 :: utf8_scan t2
              end
          end
      end
    else Invalid 1 :: utf8_scan t0
  end.

(** The [errors] argument of [decode]. *)
Inductive ErrorHandler := Strict | Ignore | Replace.

(** U+FFFD, the character ['replace'] puts in place of undecodable bytes. *)
Definition REPLACEMENT_CHARACTER : codepoint := 65533%N.

Fixpoint apply_errors (errors : ErrorHandler) (items : list Utf8Item)
  : exn + str :=
  match items with
  | [] => inr []
  | Char c :: rest =>
    match apply_errors errors rest with
    | inr s => inr (c :: s)
    | inl e => inl e
    end
  | Invalid _ :: rest =>
    match errors with
    | Strict => inl UnicodeDecodeError
    | Ignore => apply_errors errors rest
    | Replace =>
      match apply_errors errors rest with
      | inr s => inr (REPLACEMENT_CHARACTER :: s)
      | inl e => inl e
      end
    end
  end.

Definition decode_utf8 (errors : ErrorHandler) (data : list byte) : exn + str :=
  apply_errors errors (utf8_scan (map Byte.to_N data)).

(** The code points of the well-formed sequences, in order. *)
Fixpoint chars_of (items : list Utf8Item) : str :=
  match items with
  | [] => []
  | Char c :: rest => c :: chars_of rest
  | Invalid _ :: rest => chars_of rest
  end.

(** The text in which every ill-formed sequence is replaced by U+FFFD. *)
Fixpoint substituted (items : list Utf8Item) : str :=
  match items with
  | [] => []
  | Char c :: rest => c :: substituted rest
  | Invalid _ :: rest => REPLACEMENT_CHARACTER :: substituted rest
  end.

(** The number of ill-formed sequences. *)
Fixpoint invalid_count (items : list Utf8Item) : nat :=
  match items with
  | [] => 0%nat
  | Char _ :: rest => invalid_count rest
  | Invalid _ :: rest => S (invalid_count rest)
  end.

(** ** [int(text)] on an engine-reported port

    Base ten: surrounding white space is dropped, one sign is allowed, and
    single underscores may separate digits.  Anything else is ValueError. *)

Definition is_space (a : ascii) : bool :=
  let n := nat_of_ascii a in
  (Nat.leb 9 n && Nat.leb n 13) || (Nat.leb 28 n && Nat.leb n 32).

Fixpoint lstrip (l : list ascii) : list ascii :=
  match l with
  | [] => []
  | a :: t => if is_space a then lstrip t else l
  end.

Definition strip (l : list ascii) : list ascii :=
  rev (lstrip (rev (lstrip l))).

Definition digit_of (a : ascii) : option Z :=
  let n := nat_of_ascii a in
  if Nat.leb 48 n && Nat.leb n 57 then Some (Z.of_nat (n - 48)) else None.

Fixpoint parse_digits (acc : Z) (after_digit : bool) (l : list ascii)
  : option Z :=
  match l with
  | [] => if after_digit then Some acc else None
  | a :: t =>
    match digit_of a with
    | Some d => parse_digits (acc * 10 + d) true t
    | None =>
      if Ascii.eqb a "_" && after_digit then parse_digits acc false t
      else None
    end
  end.

Definition py_int (s : string) : option Z :=
  match strip (list_ascii_of_string s) with
  | a :: t =>
    if Ascii.eqb a "-" then Z.opp <$> parse_digits 0 false t
    else if Ascii.eqb a "+" then parse_digits 0 false t
    else parse_digits 0 false (a :: t)
  | [] => None
  end.

(** ** Outcomes and the monad of the driver

    A call returns, raises, or never comes back (a request the outside world
    never answers).  Python mutates objects in place, so the state reached
    when an exception leaves a method is kept. *)

Inductive Result (A : Type) :=
| Ret (a : A)
| Raise (e : exn)
| Diverge.
Arguments Ret {A} a.
Arguments Raise {A} e.
Arguments Diverge {A}.

Definition Py (S A : Type) : Type := S -> Result A * S.

Definition ret {S A} (a : A) : Py S A := fun s => (Ret a, s).

Definition raise {S A} (e : exn) : Py S A := fun s => (Raise e, s).

Definition bind {S A B} (m : Py S A) (k : A -> Py S B) : Py S B :=
  fun s =>
    match m s with
    | (Ret a, s') => k a s'
    | (Raise e, s') => (Raise e, s')
    | (Diverge, s') => (Diverge, s')
    end.

Declare Scope py_scope.
Delimit Scope py_scope with py.
Notation "x <- m ;; k" := (bind m (fun x => k))
  (at level 100, m at next level, right associativity) : py_scope.
Notation "m ;; k" := (bind m (fun _ => k))
  (at level 100, right associativity) : py_scope.
Local Open Scope py_scope.

Definition gets {S A} (f : S -> A) : Py S A := fun s => (Ret (f s), s).

Definition modify {S} (f : S -> S) : Py S unit := fun s => (Ret tt, f s).

(** [try: body except ...: handler].  [handler e] is [None] when no
    [except] clause matches [e]. *)
Definition try_except {S A} (body : Py S A) (handler : exn -> option (Py S A))
  : Py S A :=
  fun s =>
    match body s with
    | (Raise e, s') =>
      match handler e with
      | Some h => h s'
      | None => (Raise e, s')
      end
    | other => other
    end.

(** ** The outside world *)

(** A transport (one secure-shell connection) and a channel (one remote
    command) are named by the moment they were requested. *)
Definition Tid := nat.
Definition Chan := nat.

(** What [Container.reload()] caches from the engine's inspect answer:
    [attrs['State']['Status']] and [attrs['NetworkSettings']['Ports']]. *)
Record Attrs := {
  Status : string;
  Ports : gmap string (option (list (gmap string string)))
}.

(** [SSHClient.connect] either completes, fails before a transport exists
    (nothing to reach, connection refused), fails after the transport was
    made and stored on the client (negotiation or authentication), or does
    not come back. *)
Inductive ConnectReply :=
| Connected
| RefusedEarly (e : exn)
| FailedLate (e : exn)
| ConnectHangs.

(** [TarFile.extractfile(member)]: a file object for a regular file, [None]
    for a member without data (directory, device), or an error. *)
Inductive Extracted :=
| FileObject (data : list byte)
| NoFileObject
| ExtractError (e : exn).

Record TarInfo := {
  name : string;
  extractfile : Extracted
}.

Record Oracle := {
  env_from_env : nat -> Result unit;
  env_ping : nat -> Result unit;
  env_create : nat -> Result (string * Attrs);
  env_inspect : nat -> string -> Result Attrs;
  env_start : nat -> string -> Result unit;
  env_stop : nat -> string -> Result unit;
  env_remove : nat -> string -> bool -> Result unit;
  env_get_archive : nat -> string -> str -> Result (list (list byte));
  env_expanduser : str -> str;
  env_path_exists : nat -> str -> bool;
  env_connect : nat -> Z -> str -> ConnectReply;
  env_is_active : nat -> Tid -> bool;
  env_exec_command : nat -> Tid -> str -> Z -> Result unit;
  env_recv_exit_status : nat -> Chan -> Result Z;
  env_tarfile_open : list byte -> exn + list TarInfo
}.

Inductive Event :=
| EPrint (msg : str)
| EFromEnv
| EPing
| ECreate (image command : string) (ports : list (string * option Z))
          (detach : bool)
| EReload (cid : string)
| EStart (cid : string)
| EStop (cid : string)
| ERemove (cid : string) (force : bool)
| ESleep (seconds : Z)
| EGetArchive (cid : string) (path : str)
| EPathExists (path : str)
| EConnect (hostname : string) (port : Z) (username : string)
           (key_filename : str) (timeout : Z)
| EIsActive (t : Tid)
| EClose (t : Tid)
| EExecCommand (t : Tid) (command : str) (timeout : Z) (ch : Chan)
| ERecvExitStatus (ch : Chan) (answer : Result Z).

(** The world as the driver sees it: the oracle, the moment, what was
    requested so far, and three ledgers kept for the statements: the
    containers the run has put on the host and not removed, the transports
    it has opened, and the transports it has closed. *)
Record World := {
  w_env : Oracle;
  w_clock : nat;
  w_trace : list Event;
  w_containers : list string;
  w_sessions : list Tid;
  w_closed : list Tid
}.

Definition log (ev : Event) (w : World) : World :=
  {| w_env := w_env w; w_clock := w_clock w;
     w_trace := w_trace w ++ [ev];
     w_containers := w_containers w;
     w_sessions := w_sessions w; w_closed := w_closed w |}.

Definition tick (w : World) : World :=
  {| w_env := w_env w; w_clock := S (w_clock w);
     w_trace := w_trace w;
     w_containers := w_containers w;
     w_sessions := w_sessions w; w_closed := w_closed w |}.

Definition with_containers (cs : list string) (w : World) : World :=
  {| w_env := w_env w; w_clock := w_clock w;
     w_trace := w_trace w;
     w_containers := cs;
     w_sessions := w_sessions w; w_closed := w_closed w |}.

Definition with_sessions (ts : list Tid) (w : World) : World :=
  {| w_env := w_env w; w_clock := w_clock w;
     w_trace := w_trace w;
     w_containers := w_containers w;
     w_sessions := ts; w_closed := w_closed w |}.

Definition with_closed (ts : list Tid) (w : World) : World :=
  {| w_env := w_env w; w_clock := w_clock w;
     w_trace := w_trace w;
     w_containers := w_containers w;
     w_sessions := w_sessions w; w_closed := ts |}.

(** One request: the oracle answers for the present moment, the request is
    written down, and the moment passes. *)
Definition request {A} (answer : Oracle -> nat -> Result A)
  (ev : Result A -> Event) : Py World A :=
  fun w =>
    let r := answer (w_env w) (w_clock w) in
    (r, tick (log (ev r) w)).

Definition print (msg : str) : Py World unit :=
  fun w => (Ret tt, log (EPrint msg) w).

Definition time_sleep (seconds : Z) : Py World unit :=
  fun w => (Ret tt, log (ESleep seconds) w).

(** ** The objects of the driver *)

(** [paramiko.SSHClient]: the driver only ever looks at its transport, which
    is [None] until [connect] made one and again after [close]. *)
Record SSHClient := {
  _transport : option Tid
}.

(** [docker.models.containers.Container]: the id and the cached [attrs]. *)
Record Container := {
  c_id : string;
  attrs : Attrs
}.

Definition c_short_id (c : Container) : string :=
  substring 0 12 (c_id c).

Record KaliManager := {
  _docker_client : unit
}.

Record KaliContainer := {
  _owner : KaliManager;
  _ssh_client : option SSHClient;
  _container : Container;
  kc_id : string;
  kc_short_id : string
}.

(** A method runs on [self] and on the world. *)
Record State := {
  self : KaliContainer;
  world : World
}.

Definition liftW {A} (m : Py World A) : Py State A :=
  fun s =>
    let (r, w) := m (world s) in
    (r, {| self := self s; world := w |}).

Definition set_attrs (a : Attrs) (kc : KaliContainer) : KaliContainer :=
  {| _owner := _owner kc; _ssh_client := _ssh_client kc;
     _container := {| c_id := c_id (_container kc); attrs := a |};
     kc_id := kc_id kc; kc_short_id := kc_short_id kc |}.

Definition set_ssh_client (c : option SSHClient) (kc : KaliContainer)
  : KaliContainer :=
  {| _owner := _owner kc; _ssh_client := c;
     _container := _container kc;
     kc_id := kc_id kc; kc_short_id := kc_short_id kc |}.

Definition on_self (f : KaliContainer -> KaliContainer) (s : State) : State :=
  {| self := f (self s); world := world s |}.

Definition on_world (f : World -> World) (s : State) : State :=
  {| self := self s; world := f (world s) |}.

(** *** The engine, through [self._container] *)

Definition Container_reload : Py State unit :=
  cid <- gets (fun s => c_id (_container (self s))) ;;
  a <- liftW (request (fun env n => env_inspect env n cid)
                      (fun _ => EReload cid)) ;;
  modify (on_self (set_attrs a)).

Definition Container_status : Py State string :=
  gets (fun s => Status (attrs (_container (self s)))).

Definition Container_ports
  : Py State (gmap string (option (list (gmap string string)))) :=
  gets (fun s => Ports (attrs (_container (self s)))).

Definition Container_start : Py State unit :=
  cid <- gets (fun s => c_id (_container (self s))) ;;
  liftW (request (fun env n => env_start env n cid) (fun _ => EStart cid)).

Definition Container_stop : Py State unit :=
  cid <- gets (fun s => c_id (_container (self s))) ;;
  liftW (request (fun env n => env_stop env n cid) (fun _ => EStop cid)).

Definition forget_container (cid : string) (w : World) : World :=
  with_containers
    (List.filter (fun c => negb (String.eqb c cid)) (w_containers w)) w.

Definition Container_remove (force : bool) : Py State unit :=
  cid <- gets (fun s => c_id (_container (self s))) ;;
  liftW (request (fun env n => env_remove env n cid force)
                 (fun _ => ERemove cid force)) ;;
  modify (on_world (forget_container cid)).

Definition Container_get_archive (path : str) : Py State (list (list byte)) :=
  cid <- gets (fun s => c_id (_container (self s))) ;;
  liftW (request (fun env n => env_get_archive env n cid path)
                 (fun _ => EGetArchive cid path)).

(** *** The file system *)

Definition os_path_expanduser (path : str) : Py State str :=
  gets (fun s => env_expanduser (w_env (world s)) path).

Definition os_path_exists (path : str) : Py State bool :=
  liftW (request (fun env n => Ret (env_path_exists env n path))
                 (fun _ => EPathExists path)).

(** *** The secure shell, through [self._ssh_client] *)

(** [transport.is_active()] on what [get_transport()] returned. *)
Definition Transport_is_active (t : option Tid) : Py State bool :=
  match t with
  | None => raise AttributeError
  | Some tid =>
    liftW (request (fun env n => Ret (env_is_active env n tid))
                   (fun _ => EIsActive tid))
  end.

Definition store_transport (t : Tid) (s : State) : State :=
  {| self := set_ssh_client (Some {| _transport := Some t |}) (self s);
     world := with_sessions (w_sessions (world s) ++ [t]) (world s) |}.

Definition SSHClient_connect (hostname : string) (port : Z)
  (username : string) (key_filename : str) (timeout : Z) : Py State unit :=
  fun s =>
    match _ssh_client (self s) with
    | None => (Raise AttributeError, s)
    | Some _ =>
      let w := world s in
      let t := w_clock w in
      let s1 :=
        on_world (fun w =>
          tick (log (EConnect hostname port username key_filename timeout) w))
          s in
      match env_connect (w_env w) (w_clock w) port key_filename with
      | Connected => (Ret tt, store_transport t s1)
      | RefusedEarly e => (Raise e, s1)
      | FailedLate e => (Raise e, store_transport t s1)
      | ConnectHangs => (Diverge, s1)
      end
    end.

Definition SSHClient_close : Py State unit :=
  fun s =>
    match _ssh_client (self s) with
    | None => (Raise AttributeError, s)
    | Some c =>
      match _transport c with
      | None => (Ret tt, s)
      | Some t =>
        (Ret tt,
         {| self := set_ssh_client (Some {| _transport := None |}) (self s);
            world :=
              with_closed (w_closed (world s) ++ [t])
                          (log (EClose t) (world s)) |})
      end
    end.

(** [exec_command] opens a channel on the client's transport. *)
Definition SSHClient_exec_command (command : str) (timeout : Z)
  : Py State Chan :=
  c <- gets (fun s => _ssh_client (self s)) ;;
  match c with
  | None => raise AttributeError
  | Some c =>
    match _transport c with
    | None => raise AttributeError
    | Some t =>
      ch <- gets (fun s => w_clock (world s)) ;;
      liftW (request (fun env n => env_exec_command env n t command timeout)
                     (fun _ => EExecCommand t command timeout ch)) ;;
      ret ch
    end
  end.

Definition Channel_recv_exit_status (ch : Chan) : Py State Z :=
  liftW (request (fun env n => env_recv_exit_status env n ch)
                 (fun r => ERecvExitStatus ch r)).

(** *** Messages *)

Definition str_of_int (z : Z) : str := lit (pretty z).

Definition msg_no_port (cid : string) : str :=
  (lit "Failed to find mapped SSH port for container " ++ lit cid)%list.

Definition msg_no_key (key_path : str) : str :=
  (lit "SSH private key not found at " ++ key_path ++ lit ".")%list.

Definition msg_sending (command : str) : str :=
  (lit "  [+] Sending command: '" ++ command ++ lit "'")%list.

Definition msg_finished (exit_status : Z) : str :=
  (lit "  [+] Command finished with exit status: " ++ str_of_int exit_status)%list.

Definition msg_no_output (path : str) : str :=
  (lit "Command produced no output file at '" ++ path ++ lit "'.")%list.

Definition msg_cleaning (short_id : string) : str :=
  ([10%N] ++ lit "  [+] Cleaning up container '" ++ lit short_id ++ lit "'...")%list.

Definition msg_created (short_id : string) : str :=
  (lit "  [+] Container '" ++ lit short_id ++ lit "' created and running.")%list.

(** ** [class KaliContainer] *)

Definition _ensure_started : Py State unit :=
  Container_reload ;;
  status <- Container_status ;;
  (if negb (String.eqb status "running")
   then Container_start ;; liftW (time_sleep 2)
   else ret tt) ;;
  Container_reload.

(** [self._ssh_client and self._ssh_client.get_transport().is_active()] *)
Definition session_is_active : Py State bool :=
  client <- gets (fun s => _ssh_client (self s)) ;;
  match client with
  | None => ret false
  | Some c => Transport_is_active (_transport c)
  end.

Definition KEY_PATH : str := lit "~/.ssh/id_ecdsa".

Definition _ensure_connected : Py State unit :=
  live <- session_is_active ;;
  if live then ret tt
  else
    Container_reload ;;
    ports <- Container_ports ;;
    cid <- gets (fun s => kc_id (self s)) ;;
    (* port_data = ports.get('22/tcp');
       not port_data or 'HostPort' not in port_data[0] *)
    match default None (ports !! "22/tcp") with
    | Some (binding :: _) =>
      match binding !! "HostPort" with
      | Some host_port =>
        match py_int host_port with
        | Some public_port =>
          key_path <- os_path_expanduser KEY_PATH ;;
          found <- os_path_exists key_path ;;
          if negb found then raise (FileNotFoundError (msg_no_key key_path))
          else
            (* self._ssh_client = paramiko.SSHClient(); the host key
               policy that follows changes nothing the driver observes *)
            modify (on_self (set_ssh_client (Some {| _transport := None |}))) ;;
            SSHClient_connect "localhost" public_port "root" key_path 30
        | None => raise ValueError
        end
      | None => raise (Exception_ (msg_no_port cid))
      end
    | _ => raise (Exception_ (msg_no_port cid))
    end.

Definition DEFAULT_TIMEOUT : Z := 1800.

(** The body ends without a [return]: the caller receives [None]. *)
Definition send_command_and_get_output (command : str) (timeout : Z)
  : Py State pyval :=
  _ensure_connected ;;
  liftW (print (msg_sending command)) ;;
  ch <- SSHClient_exec_command command timeout ;;
  exit_status <- Channel_recv_exit_status ch ;;
  liftW (print (msg_finished exit_status)) ;;
  ret PyNone.

(** [f = BytesIO(); for chunk in bits: f.write(chunk); f.seek(0)] *)
Definition BytesIO_of_chunks (bits : list (list byte)) : list byte :=
  fold_left (fun f chunk => (f ++ chunk)%list) bits [].

Definition tarfile_open (f : list byte) : Py State (list TarInfo) :=
  fun s =>
    match env_tarfile_open (w_env (world s)) f with
    | inr members => (Ret members, s)
    | inl e => (Raise e, s)
    end.

(** [l[0]] *)
Definition first_item {A} (l : list A) : Py State A :=
  match l with
  | x :: _ => ret x
  | [] => raise IndexError
  end.

(** [tar.extractfile(member).read()] *)
Definition extract_and_read (member : TarInfo) : Py State (list byte) :=
  match extractfile member with
  | FileObject data => ret data
  | NoFileObject => raise AttributeError
  | ExtractError e => raise e
  end.

Definition bytes_decode (errors : ErrorHandler) (data : list byte)
  : Py State str :=
  match decode_utf8 errors data with
  | inr s => ret s
  | inl e => raise e
  end.

Definition copy_file_from_container (path : str) : Py State pyval :=
  try_except
    (bits <- Container_get_archive path ;;
     let f := BytesIO_of_chunks bits in
     members <- tarfile_open f ;;
     member <- first_item members ;;
     data <- extract_and_read member ;;
     text <- bytes_decode Ignore data ;;
     ret (PyStr text))
    (fun e =>
       if isinstance_NotFound e then Some (ret (PyStr (msg_no_output path)))
       else if isinstance_IndexError e
            then Some (ret (PyStr (msg_no_output path)))
            else None).

Definition status_in_running_created (status : string) : bool :=
  String.eqb status "running" || String.eqb status "created".

Definition destroy : Py State pyval :=
  client <- gets (fun s => _ssh_client (self s)) ;;
  (match client with
   | Some _ => SSHClient_close
   | None => ret tt
   end) ;;
  try_except
    (Container_reload ;;
     short_id <- gets (fun s => kc_short_id (self s)) ;;
     liftW (print (msg_cleaning short_id)) ;;
     status <- Container_status ;;
     (if status_in_running_created status then Container_stop else ret tt) ;;
     Container_remove true ;;
     liftW (print (lit "  [+] Cleanup complete.")))
    (fun e => if isinstance_NotFound e then Some (ret tt) else None) ;;
  ret PyNone.

(** [client.containers.create(...)]: a container now exists on the host. *)
Definition containers_create (image command : string)
  (ports : list (string * option Z)) (detach : bool) : Py World Container :=
  ia <- request env_create (fun _ => ECreate image command ports detach) ;;
  modify (fun w => with_containers (w_containers w ++ [fst ia]) w) ;;
  ret {| c_id := fst ia; attrs := snd ia |}.

(** Runs a method on a given [self] inside a constructor. *)
Definition as_self {A} (kc : KaliContainer) (m : Py State A)
  : Py World (A * KaliContainer) :=
  fun w =>
    match m {| self := kc; world := w |} with
    | (Ret a, s) => (Ret (a, self s), world s)
    | (Raise e, s) => (Raise e, world s)
    | (Diverge, s) => (Diverge, world s)
    end.

Definition KaliContainer_init (owner : KaliManager) : Py World KaliContainer :=
  print (lit "  [+] Creating Kali container from 'dawnyawn-kali-agent' image...") ;;
  container <- containers_create "dawnyawn-kali-agent" "/usr/sbin/sshd -D"
                                 [("22/tcp", None)] true ;;
  let kc := {| _owner := owner; _ssh_client := None;
               _container := container;
               kc_id := c_id container;
               kc_short_id := c_short_id container |} in
  r <- as_self kc _ensure_started ;;
  print (msg_created (kc_short_id (snd r))) ;;
  ret (snd r).

(** ** [class KaliManager] *)

Definition docker_from_env : Py World unit :=
  request env_from_env (fun _ => EFromEnv).

Definition DockerClient_ping : Py World unit :=
  request env_ping (fun _ => EPing).

(** Every exception of the model is an [Exception], so the clause
    [except Exception as e] matches; it prints and raises [e] again. *)
Definition KaliManager_init : Py World KaliManager :=
  try_except
    (client <- docker_from_env ;;
     DockerClient_ping ;;
     ret {| _docker_client := client |})
    (fun e =>
       Some (print (lit "FATAL ERROR: Could not connect to Docker. Is it running?") ;;
             raise e)).

Definition create_container (manager : KaliManager) : Py World KaliContainer :=
  KaliContainer_init manager.

(** ** What a run requested *)

Definition trace_of (s : State) : list Event := w_trace (world s).

(** The requests a method adds to the trace when started in [s]. *)
Definition issued {A} (m : Py State A) (s : State) : list Event :=
  drop (length (trace_of s)) (trace_of (snd (m s))).

Definition self_cid (s : State) : string := c_id (_container (self s)).

Definition oracle_of (s : State) : Oracle := w_env (world s).

Definition now (s : State) : nat := w_clock (world s).

(** The exit status of channel [ch] has been reported to the driver. *)
Definition exit_status_known (w : World) (ch : Chan) (code : Z) : Prop :=
  In (ERecvExitStatus ch (Ret code)) (w_trace w).

(** The host port the engine published for port 22 of the container, as
    [_ensure_connected] reads it from the port map. *)
Definition host_port_of
  (ports : gmap string (option (list (gmap string string)))) : option string :=
  match default None (ports !! "22/tcp") with
  | Some (binding :: _) => binding !! "HostPort"
  | _ => None
  end.

(** The sandbox holds no live session, and [n] is the moment at which
    [_ensure_connected] will reload the container: there is no client, or
    the client's transport has just answered that it is not active. *)
Definition needs_session (s : State) (n : nat) : Prop :=
  (_ssh_client (self s) = None /\ n = now s)
  \/ (exists t,
        _ssh_client (self s) = Some {| _transport := Some t |}
        /\ env_is_active (oracle_of s) (now s) t = false
        /\ n = S (now s)).

(** *** Sessions of a sandbox *)

(** The transport [self._ssh_client] holds, if any. *)
Definition held (s : State) : option Tid :=
  match _ssh_client (self s) with
  | Some c => _transport c
  | None => None
  end.

(** A transport is live when the driver has not closed it and the outside
    world reports it active at the present moment. *)
Definition live (w : World) (t : Tid) : bool :=
  negb (existsb (Nat.eqb t) (w_closed w))
  && env_is_active (w_env w) (w_clock w) t.

Definition live_sessions (w : World) : list Tid :=
  List.filter (live w) (w_sessions w).

(** A transport that was once reported inactive is never reported active
    again. *)
Definition stays_dead (env : Oracle) : Prop :=
  forall (t : Tid) (n m : nat),
    (n <= m)%nat -> env_is_active env n t = false ->
    env_is_active env m t = false.

(** What a caller does with a sandbox. *)
Inductive Op :=
| Execute (command : str) (timeout : Z)
| RetrieveFile (path : str)
| Destroy.

Definition run_op (op : Op) : Py State pyval :=
  match op with
  | Execute command timeout => send_command_and_get_output command timeout
  | RetrieveFile path => copy_file_from_container path
  | Destroy => destroy
  end.

(** The caller goes on after a return and after an exception; after a call
    that never comes back there is nothing more. *)
Fixpoint run_ops (ops : list Op) (s : State) : State :=
  match ops with
  | [] => s
  | op :: rest =>
    match run_op op s with
    | (Diverge, s') => s'
    | (_, s') => run_ops rest s'
    end
  end.

(** The ledger of opened transports has no repetition and names only
    moments that have passed; a live transport in it is the one held, and
    the one held is in it. *)
Definition session_inv (s : State) : Prop :=
  List.NoDup (w_sessions (world s))
  /\ (forall t, In t (w_sessions (world s)) -> (t < now s)%nat)
  /\ (forall t, In t (w_sessions (world s)) ->
                live (world s) t = true -> held s = Some t)
  /\ (forall t, held s = Some t -> In t (w_sessions (world s))).

(** A step that neither opens nor closes nor replaces a session. *)
Definition quiet (s s' : State) : Prop :=
  oracle_of s' = oracle_of s
  /\ w_closed (world s') = w_closed (world s)
  /\ w_sessions (world s') = w_sessions (world s)
  /\ held s' = held s
  /\ (now s <= now s')%nat.

(** What [_ensure_connected] can do to the sessions: nothing, or, with no
    transport held or the held one just found inactive, drop the held
    transport and possibly open one named by a moment of the call. *)
Definition reconnects (s s' : State) : Prop :=
  oracle_of s' = oracle_of s
  /\ w_closed (world s') = w_closed (world s)
  /\ (now s <= now s')%nat
  /\ ((held s' = held s /\ w_sessions (world s') = w_sessions (world s))
      \/ ((held s = None
           \/ exists t0, held s = Some t0
                         /\ env_is_active (oracle_of s) (now s) t0 = false)
          /\ ((held s' = None
               /\ w_sessions (world s') = w_sessions (world s))
              \/ exists c, (now s <= c < now s')%nat
                           /\ held s' = Some c
                           /\ w_sessions (world s')
                              = (w_sessions (world s) ++ [c])%list))).

(** What [destroy] does to the sessions: the held transport is closed. *)
Definition closes (s s' : State) : Prop :=
  oracle_of s' = oracle_of s
  /\ w_sessions (world s') = w_sessions (world s)
  /\ held s' = None
  /\ (now s <= now s')%nat
  /\ w_closed (world s')
     = (w_closed (world s)
        ++ match held s with Some t => [t] | None => [] end)%list.

(** An answer of the engine that [destroy] lives with: success, or an
    error of class [NotFound]. *)
Definition tolerable {A} (r : Result A) : bool :=
  match r with
  | Ret _ => true
  | Raise e => isinstance_NotFound e
  | Diverge => false
  end.

(** At every moment the engine answers the three requests of [destroy]
    about container [cid] in a tolerable way. *)
Definition engine_tolerable (env : Oracle) (cid : string) : Prop :=
  forall n : nat,
    tolerable (env_inspect env n cid) = true
    /\ tolerable (env_stop env n cid) = true
    /\ tolerable (env_remove env n cid true) = true.

(** *** Kinds of request *)

Definition is_exec_command (ev : Event) : bool :=
  match ev with
  | EExecCommand _ _ _ _ => true
  | _ => false
  end.

Definition is_connect (ev : Event) : bool :=
  match ev with
  | EConnect _ _ _ _ _ => true
  | _ => false
  end.


(** A request that takes a container down. *)
Definition is_teardown (ev : Event) : bool :=
  match ev with
  | EStop _ | ERemove _ _ => true
  | _ => false
  end.

(** ** Sample worlds *)

Module Sample.

Definition binding : gmap string string :=
  <["HostIp" := "0.0.0.0"]> (<["HostPort" := "32768"]> ∅).

Definition published : gmap string (option (list (gmap string string))) :=
  <["22/tcp" := Some [binding]]> ∅.

Definition unpublished : gmap string (option (list (gmap string string))) :=
  <["22/tcp" := None]> ∅.

Definition running : Attrs := {| Status := "running"; Ports := published |}.

Definition created : Attrs := {| Status := "created"; Ports := unpublished |}.

Definition cid : string :=
  "4f1c2ab09e7d5c3b8a6f0e1d2c3b4a5968778695a4b3c2d1e0f9a8b7c6d5e4f3".

(** The bytes of [hello] and a line end. *)
Definition hello : list byte := [x68; x65; x6c; x6c; x6f; x0a].

(** An engine and a shell where every request succeeds: the container
    runs with its port published, the key exists, the command exits
    with status 7 and the archive holds one file, [hello]. *)
Definition calm : Oracle := {|
  env_from_env := fun _ => Ret tt;
  env_ping := fun _ => Ret tt;
  env_create := fun _ => Ret (cid, created);
  env_inspect := fun _ _ => Ret running;
  env_start := fun _ _ => Ret tt;
  env_stop := fun _ _ => Ret tt;
  env_remove := fun _ _ _ => Ret tt;
  env_get_archive := fun _ _ _ => Ret [hello];
  env_expanduser := fun _ => lit "/root/.ssh/id_ecdsa";
  env_path_exists := fun _ _ => true;
  env_connect := fun _ _ _ => Connected;
  env_is_active := fun _ _ => true;
  env_exec_command := fun _ _ _ _ => Ret tt;
  env_recv_exit_status := fun _ _ => Ret 7;
  env_tarfile_open := fun f =>
    inr [ {| name := "out.txt"; extractfile := FileObject f |} ]
|}.

(** A host on which nothing has happened yet. *)
Definition empty_world (env : Oracle) : World := {|
  w_env := env; w_clock := 0; w_trace := [];
  w_containers := []; w_sessions := []; w_closed := []
|}.

(** A host holding the container of one sandbox. *)
Definition world_of (env : Oracle) : World := {|
  w_env := env; w_clock := 0; w_trace := [];
  w_containers := [cid]; w_sessions := []; w_closed := []
|}.

Definition manager : KaliManager := {| _docker_client := tt |}.

Definition sandbox (a : Attrs) : KaliContainer := {|
  _owner := manager; _ssh_client := None;
  _container := {| c_id := cid; attrs := a |};
  kc_id := cid; kc_short_id := substring 0 12 cid
|}.

(** A sandbox as [create_container] leaves it, in the world of [env]. *)
Definition fresh (env : Oracle) : State :=
  {| self := sandbox running; world := world_of env |}.

(** The same sandbox before its container was started. *)
Definition unstarted (env : Oracle) : State :=
  {| self := sandbox created; world := world_of env |}.

Definition with_inspect (f : nat -> string -> Result Attrs) (env : Oracle)
  : Oracle := {|
  env_from_env := env_from_env env; env_ping := env_ping env;
  env_create := env_create env; env_inspect := f;
  env_start := env_start env; env_stop := env_stop env;
  env_remove := env_remove env; env_get_archive := env_get_archive env;
  env_expanduser := env_expanduser env;
  env_path_exists := env_path_exists env;
  env_connect := env_connect env; env_is_active := env_is_active env;
  env_exec_command := env_exec_command env;
  env_recv_exit_status := env_recv_exit_status env;
  env_tarfile_open := env_tarfile_open env
|}.

Definition with_archive
  (f : nat -> string -> str -> Result (list (list byte)))
  (tar : list byte -> exn + list TarInfo) (env : Oracle) : Oracle := {|
  env_from_env := env_from_env env; env_ping := env_ping env;
  env_create := env_create env; env_inspect := env_inspect env;
  env_start := env_start env; env_stop := env_stop env;
  env_remove := env_remove env; env_get_archive := f;
  env_expanduser := env_expanduser env;
  env_path_exists := env_path_exists env;
  env_connect := env_connect env; env_is_active := env_is_active env;
  env_exec_command := env_exec_command env;
  env_recv_exit_status := env_recv_exit_status env;
  env_tarfile_open := tar
|}.

Definition with_connect (f : nat -> Z -> str -> ConnectReply)
  (alive : nat -> Tid -> bool) (env : Oracle) : Oracle := {|
  env_from_env := env_from_env env; env_ping := env_ping env;
  env_create := env_create env; env_inspect := env_inspect env;
  env_start := env_start env; env_stop := env_stop env;
  env_remove := env_remove env; env_get_archive := env_get_archive env;
  env_expanduser := env_expanduser env;
  env_path_exists := env_path_exists env;
  env_connect := f; env_is_active := alive;
  env_exec_command := env_exec_command env;
  env_recv_exit_status := env_recv_exit_status env;
  env_tarfile_open := env_tarfile_open env
|}.

Definition with_engine (ping : nat -> Result unit)
  (start stop : nat -> string -> Result unit) (env : Oracle) : Oracle := {|
  env_from_env := env_from_env env; env_ping := ping;
  env_create := env_create env; env_inspect := env_inspect env;
  env_start := start; env_stop := stop;
  env_remove := env_remove env; env_get_archive := env_get_archive env;
  env_expanduser := env_expanduser env;
  env_path_exists := env_path_exists env;
  env_connect := env_connect env; env_is_active := env_is_active env;
  env_exec_command := env_exec_command env;
  env_recv_exit_status := env_recv_exit_status env;
  env_tarfile_open := env_tarfile_open env
|}.

(** The first inspect finds the container created, later ones running. *)
Definition cold : Oracle :=
  with_inspect
    (fun n _ => match n with O => Ret created | _ => Ret running end) calm.

(** The engine cannot be reached. *)
Definition engine_down : Oracle :=
  with_inspect (fun _ _ => Raise ConnectionError)
    (with_engine (fun _ => Raise ConnectionError)
                 (fun _ _ => Raise ConnectionError)
                 (fun _ _ => Raise ConnectionError) calm).

(** The engine knows no such path in the container. *)
Definition no_file : Oracle :=
  with_archive (fun _ _ _ => Raise NotFound) (env_tarfile_open calm) calm.

(** The engine sends an archive without entries. *)
Definition empty_archive : Oracle :=
  with_archive (env_get_archive calm) (fun _ => inr []) calm.

(** The archive holds one regular file with the given bytes. *)
Definition holding (data : list byte) : Oracle :=
  with_archive (fun _ _ _ => Ret [data]) (env_tarfile_open calm) calm.

(** The path is a directory: the archive starts with the entry of the
    directory itself, followed by the file inside it. *)
Definition directory_first : Oracle :=
  with_archive (env_get_archive calm)
    (fun f => inr [ {| name := "tmp"; extractfile := NoFileObject |};
                    {| name := "tmp/out.txt"; extractfile := FileObject f |} ])
    calm.

(** The archive holds the file and, after it, a second file. *)
Definition two_files : Oracle :=
  with_archive (env_get_archive calm)
    (fun f => inr [ {| name := "out.txt"; extractfile := FileObject f |};
                    {| name := "other.txt"; extractfile := FileObject [x78] |} ])
    calm.

(** The engine is up but fails to stop the container. *)
Definition stop_fails : Oracle :=
  with_engine (env_ping calm) (env_start calm) (fun _ _ => Raise APIError)
    calm.

(** The engine creates the container but fails to start it. *)
Definition start_fails : Oracle :=
  with_inspect (fun _ _ => Ret created)
    (with_engine (env_ping calm) (fun _ _ => Raise APIError) (env_stop calm)
       calm).

(** The container is removed by the first removal: inspecting it
    afterwards (from the fourth request on) finds nothing. *)
Definition removable : Oracle :=
  with_inspect
    (fun n _ => if Nat.leb 3 n then Raise NotFound else Ret running) calm.

(** The shell service of the container is not listening yet when the
    first connection is tried (the first three moments); from then on
    it accepts connections. *)
Definition sshd_late : Oracle :=
  with_connect
    (fun n _ _ =>
       if Nat.leb n 2 then RefusedEarly NoValidConnectionsError
       else Connected)
    (env_is_active calm) calm.

(** The port of the container is not published. *)
Definition port_hidden : Oracle :=
  with_inspect (fun _ _ => Ret created) calm.

(** The transport opened at moment 2 is reported active up to moment 7
    and inactive afterwards; every other transport is active. *)
Definition flaky : Oracle :=
  with_connect (env_connect calm)
    (fun n t => negb (Nat.eqb t 2) || Nat.leb n 7) calm.




(** The archive arrives in two chunks. *)
Definition two_chunks : Oracle :=
  with_archive (fun _ _ _ => Ret [[x68; x65]; [x6c; x6c; x6f; x0a]])
    (env_tarfile_open calm) calm.

(** The archive cannot be read as a tar file. *)
Definition not_a_tar : Oracle :=
  with_archive (env_get_archive calm) (fun _ => inl ReadError) calm.

(** A sandbox that has connected once, in the calm world. *)
Definition connected : State := snd (_ensure_connected (fresh calm)).

End Sample.

(** ** [agent/thought_engine.py] *)

Definition LBRACE : codepoint := 123%N.
Definition RBRACE : codepoint := 125%N.

(** The pattern [\{.*\}] with [re.DOTALL], tried at the head of the text.
    [.*] is greedy: [dot_star_close] looks for a closing brace as far to
    the right as there is one and gives the text up to it. *)
Fixpoint dot_star_close (rest : str) : option str :=
  match rest with
  | [] => None
  | c :: t =>
    match dot_star_close t with
    | Some m => Some (c :: m)
    | None => if N.eqb c RBRACE then Some [c] else None
    end
  end.

Definition match_here (s : str) : option str :=
  match s with
  | c :: rest =>
    if N.eqb c LBRACE
    then match dot_star_close rest with
         | Some m => Some (c :: m)
         | None => None
         end
    else None
  | [] => None
  end.

(** [re.search]: the first position, from the left, where the pattern
    matches; [match.group(0)] is the text matched there. *)
Fixpoint re_search (s : str) : option str :=
  match match_here s with
  | Some m => Some m
  | None =>
    match s with
    | [] => None
    | _ :: t => re_search t
    end
  end.

Definition _clean_json_response (response_str : str) : str :=
  match re_search response_str with
  | Some m => m
  | None => response_str
  end.


(** [class ToolSelection(BaseModel)] *)
Record ToolSelection := {
  tool_name : str;
  tool_input : str
}.

(** [class PlanUpdate(BaseModel)] *)
Record PlanUpdate := {
  completed_task_ids : list Z
}.

(** [models.task_node.TaskNode] is not among the sources: a task is taken
    as the three values [_format_plan] formats, the id an [int] and the
    other two as the text their formatting gives. *)
Record TaskNode := {
  task_id : Z;
  status : str;
  description : str
}.

Definition NEWLINE : str := [10%N].
Definition QUOTE : str := [34%N].

(** [sep.join(parts)] *)
Fixpoint str_join (sep : str) (parts : list str) : str :=
  match parts with
  | [] => []
  | [p] => p
  | p :: rest => (p ++ sep ++ str_join sep rest)%list
  end.

Definition format_task (task : TaskNode) : str :=
  (lit "  - Task " ++ lit (pretty (task_id task)) ++ lit " ["
   ++ status task ++ lit "]: " ++ description task)%list.

Definition _format_plan (plan : list TaskNode) : str :=
  match plan with
  | [] => lit "No plan provided."
  | _ => str_join NEWLINE (map format_task plan)
  end.

(** Exceptions that cross the thought engine: the two classes its [except]
    clause names, with the text [str(e)] gives; [TypeError]; the
    [IndexError] of a list index; any other class, by name. *)
Inductive agent_exn :=
| ValidationError (text : str)
| JSONDecodeError (text : str)
| TypeError
| ListIndexError
| OtherError (class_name : string).

(** [except (ValidationError, json.JSONDecodeError)] *)
Definition is_invalid_json (e : agent_exn) : bool :=
  match e with
  | ValidationError _ | JSONDecodeError _ => true
  | _ => false
  end.

(** [type(e).__name__] *)
Definition class_name_of (e : agent_exn) : str :=
  match e with
  | ValidationError _ => lit "ValidationError"
  | JSONDecodeError _ => lit "JSONDecodeError"
  | TypeError => lit "TypeError"
  | ListIndexError => lit "IndexError"
  | OtherError n => lit n
  end.

(** [str(e)] where the handler formats the exception itself. *)
Definition text_of (e : agent_exn) : str :=
  match e with
  | ValidationError t | JSONDecodeError t => t
  | other => class_name_of other
  end.

Inductive Level := INFO | ERROR.

Record LogRecord := {
  level : Level;
  message : str
}.

(** The keyword arguments of [client.chat.completions.create]. *)
Record ChatRequest := {
  model : str;
  messages : list (string * str);
  timeout : Z;
  response_format : string;
  temperature : Q
}.

(** What the thought engine takes from outside the two source files: the
    two settings of [config], the chat client (its answer is the list of
    the [message.content] of the choices, each possibly [None]), the two
    pydantic validators and [json.dumps(..., indent=2)] on the history and
    on one of its entries.  [Dict] is the type of a history entry. *)
Record Deps (Dict : Type) := {
  LLM_MODEL_NAME : str;
  LLM_REQUEST_TIMEOUT : Z;
  chat_completions_create : ChatRequest -> agent_exn + list (option str);
  ToolSelection_model_validate_json : str -> agent_exn + ToolSelection;
  PlanUpdate_model_validate_json : str -> agent_exn + PlanUpdate;
  json_dumps_history : list Dict -> agent_exn + str;
  json_dumps_entry : Dict -> agent_exn + str
}.
Arguments LLM_MODEL_NAME {Dict}.
Arguments LLM_REQUEST_TIMEOUT {Dict}.
Arguments chat_completions_create {Dict}.
Arguments ToolSelection_model_validate_json {Dict}.
Arguments PlanUpdate_model_validate_json {Dict}.
Arguments json_dumps_history {Dict}.
Arguments json_dumps_entry {Dict}.

(** [class ThoughtEngine]: the attribute its methods read. *)
Record ThoughtEngine := {
  system_prompt_template : str
}.

Inductive Outcome (A : Type) :=
| Returned (a : A)
| Raised (e : agent_exn).
Arguments Returned {A} a.
Arguments Raised {A} e.

(** [response.choices[0].message.content], then [re.search] on it: an
    empty list of choices is an [IndexError], a content of [None] is a
    [TypeError]. *)
Definition cleaned_first_content (choices : list (option str))
  : agent_exn + str :=
  match choices with
  | [] => inl ListIndexError
  | None :: _ => inl TypeError
  | Some raw_response :: _ => inr (_clean_json_response raw_response)
  end.

Definition FINISH_MISSION : ToolSelection :=
  {| tool_name := lit "finish_mission";
     tool_input :=
       lit "Mission failed: The AI produced an invalid JSON response." |}.

Definition next_action_prompt (goal : str) (plan : list TaskNode)
  (history_json : str) : str :=
  (lit "Based on the goal, plan, and history below, decide the single best command to execute next to progress on a PENDING task. Respond with a single, valid JSON object."
   ++ NEWLINE ++ NEWLINE
   ++ lit "**Main Goal:** " ++ goal ++ NEWLINE ++ NEWLINE
   ++ lit "**Strategic Plan:**" ++ NEWLINE ++ _format_plan plan
   ++ NEWLINE ++ NEWLINE
   ++ lit "**Execution History (most recent last):" ++ NEWLINE
   ++ history_json)%list.

Definition THINKING : str :=
  (129300%N :: lit " Thinking about the next step...")%list.

Section Methods.

Context {Dict : Type} (deps : Deps Dict) (self : ThoughtEngine).

Definition next_action_request (goal : str) (plan : list TaskNode)
  (history_json : str) : ChatRequest :=
  {| model := LLM_MODEL_NAME deps;
     messages := [("system", system_prompt_template self);
                  ("user", next_action_prompt goal plan history_json)];
     timeout := LLM_REQUEST_TIMEOUT deps;
     response_format := "json_object";
     temperature := (2 # 10)%Q |}.

Definition choose_next_action (goal : str) (plan : list TaskNode)
  (history : list Dict) (log : list LogRecord)
  : Outcome ToolSelection * list LogRecord :=
  let log := (log ++ [ {| level := INFO; message := THINKING |} ])%list in
  match json_dumps_history deps history with
  | inl e => (Raised e, log)
  | inr history_json =>
    let attempt : agent_exn + ToolSelection :=
      match chat_completions_create deps
              (next_action_request goal plan history_json) with
      | inl e => inl e
      | inr choices =>
        match cleaned_first_content choices with
        | inl e => inl e
        | inr cleaned => ToolSelection_model_validate_json deps cleaned
        end
      end in
    match attempt with
    | inr selection =>
      (Returned selection,
       (log ++ [ {| level := INFO;
                    message := (lit "AI's Next Action: "
                                ++ tool_input selection)%list |} ])%list)
    | inl e =>
      if is_invalid_json e
      then (Returned FINISH_MISSION,
            (log ++ [ {| level := ERROR;
                         message :=
                           (lit "Critical Error during thought process: "
                            ++ class_name_of e)%list |} ])%list)
      else (Raised e, log)
    end
  end.

Definition plan_update_prompt (plan : list TaskNode) (last_json : str) : str :=
  (lit "You are a project manager AI. Review the strategic plan and the most recent entry in the execution history. "
   ++ lit "Identify which task IDs from the plan are now fully completed by the last action's observation. "
   ++ lit "Your response MUST be a single JSON object with one key: `"
   ++ QUOTE ++ lit "completed_task_ids" ++ QUOTE
   ++ lit "`, which is a list of integers. "
   ++ lit "Example: `{" ++ QUOTE ++ lit "completed_task_ids" ++ QUOTE
   ++ lit ": [1, 3]}`. If no tasks were completed, return an empty list."
   ++ NEWLINE ++ NEWLINE
   ++ lit "**Strategic Plan:**" ++ NEWLINE ++ _format_plan plan
   ++ NEWLINE ++ NEWLINE
   ++ lit "**Most Recent Action & Observation:**" ++ NEWLINE
   ++ last_json)%list.

Definition plan_update_request (plan : list TaskNode) (last_json : str)
  : ChatRequest :=
  {| model := LLM_MODEL_NAME deps;
     messages :=
       [("system", lit "You are a JSON-only plan updating assistant.");
        ("user", plan_update_prompt plan last_json)];
     timeout := LLM_REQUEST_TIMEOUT deps;
     response_format := "json_object";
     temperature := (0 # 1)%Q |}.

(** [json.dumps(history[-1], indent=2) if history else 'No actions yet.'] *)
Definition last_entry_json (history : list Dict) : agent_exn + str :=
  match rev history with
  | entry :: _ => json_dumps_entry deps entry
  | [] => inr (lit "No actions yet.")
  end.

Definition get_completed_task_ids (goal : str) (plan : list TaskNode)
  (history : list Dict) (log : list LogRecord)
  : Outcome (list Z) * list LogRecord :=
  match last_entry_json history with
  | inl e => (Raised e, log)
  | inr last_json =>
    let attempt : agent_exn + PlanUpdate :=
      match chat_completions_create deps
              (plan_update_request plan last_json) with
      | inl e => inl e
      | inr choices =>
        match cleaned_first_content choices with
        | inl e => inl e
        | inr cleaned => PlanUpdate_model_validate_json deps cleaned
        end
      end in
    match attempt with
    | inr update => (Returned (completed_task_ids update), log)
    | inl e =>
      if is_invalid_json e
      then (Returned [],
            (log ++ [ {| level := ERROR;
                         message :=
                           (lit "AI failed to identify completed tasks with valid JSON: "
                            ++ text_of e)%list |} ])%list)
      else (Raised e, log)
    end
  end.

End Methods.

(** *** Sample replies *)

Module AgentSample.

(** The text between the braces of
    [{"tool_name": "nmap", "tool_input": "nmap -sV 10.0.0.5"}]. *)
Definition object_body : str :=
  (QUOTE ++ lit "tool_name" ++ QUOTE ++ lit ": "
   ++ QUOTE ++ lit "nmap" ++ QUOTE ++ lit ", "
   ++ QUOTE ++ lit "tool_input" ++ QUOTE ++ lit ": "
   ++ QUOTE ++ lit "nmap -sV 10.0.0.5" ++ QUOTE)%list.

Definition object : str := (LBRACE :: object_body ++ [RBRACE])%list.

Definition fence_open : str := (lit "Here it is: ```json" ++ NEWLINE)%list.

Definition fence_close : str := (NEWLINE ++ lit "```")%list.

(** The object as a model tends to send it, inside a Markdown fence. *)
Definition fenced : str :=
  (fence_open ++ LBRACE :: object_body ++ RBRACE :: fence_close)%list.

Definition nmap : ToolSelection :=
  {| tool_name := lit "nmap"; tool_input := lit "nmap -sV 10.0.0.5" |}.

(** Dependencies whose chat client answers every request with [reply];
    the validator of selections accepts [object] alone, the validator of
    plan updates accepts nothing, and a history entry is its own JSON. *)
Definition deps_replying (reply : agent_exn + list (option str)) : Deps str :=
  {| LLM_MODEL_NAME := lit "local-model";
     LLM_REQUEST_TIMEOUT := 120;
     chat_completions_create := fun _ => reply;
     ToolSelection_model_validate_json := fun s =>
       if decide (s = object) then inr nmap
       else inl (ValidationError (lit "1 validation error for ToolSelection"));
     PlanUpdate_model_validate_json := fun _ =>
       inl (ValidationError (lit "1 validation error for PlanUpdate"));
     json_dumps_history := fun h => inr (str_join (lit ", ") h);
     json_dumps_entry := fun e => inr e |}.

Definition engine : ThoughtEngine :=
  {| system_prompt_template := lit "You are an expert penetration tester." |}.

Definition plan : list TaskNode :=
  [ {| task_id := 1; status := lit "PENDING";
       description := lit "Scan the target" |} ].

End AgentSample.

(** ** Proof support *)

Arguments lit : simpl never.
Arguments msg_no_port : simpl never.
Arguments msg_no_key : simpl never.
Arguments msg_sending : simpl never.
Arguments msg_finished : simpl never.
Arguments msg_no_output : simpl never.
Arguments msg_cleaning : simpl never.
Arguments msg_created : simpl never.
Arguments py_int : simpl never.
Arguments decode_utf8 : simpl never.

Ltac unfold_world :=
  unfold bind, gets, liftW, request, modify, ret, raise, try_except,
    print, time_sleep, on_self, on_world, tick, log, with_containers,
    with_sessions, with_closed, forget_container, trace_of, self_cid,
    oracle_of, now in *.

Ltac unfold_engine :=
  unfold Container_reload, Container_status, Container_ports,
    Container_start, Container_stop, Container_remove,
    Container_get_archive, os_path_expanduser, os_path_exists in *.

Ltac unfold_shell :=
  unfold session_is_active, Transport_is_active, SSHClient_connect,
    SSHClient_close, SSHClient_exec_command, Channel_recv_exit_status,
    store_transport in *.

Ltac unfold_tar :=
  unfold tarfile_open, first_item, extract_and_read, bytes_decode in *.

Ltac unfold_driver := unfold_engine; unfold_shell; unfold_tar; unfold_world.

(** Case analysis on whatever the goal still branches on, innermost
    scrutinee first. *)
Ltac crunch :=
  repeat (cbn in *;
          try match goal with
              | |- context [match ?x with _ => _ end] =>
                lazymatch x with
                | context [match _ with _ => _ end] => fail
                | _ => destruct x eqn:?
                end
              end).

Ltac trace_eq := cbn; rewrite <- ?app_assoc; reflexivity.

Ltac drop_prefix := rewrite <- ?app_assoc; cbn; rewrite drop_app_length.


(** An answer of the engine that contradicts [engine_tolerable]. *)
Ltac intolerable H :=
  match goal with
  | Hq : env_inspect _ ?n _ = _ |- _ =>
    destruct (H n) as (Hi & _ & _); rewrite Hq in Hi; cbn in Hi; congruence
  | Hq : env_stop _ ?n _ = _ |- _ =>
    destruct (H n) as (_ & Hi & _); rewrite Hq in Hi; cbn in Hi; congruence
  | Hq : env_remove _ ?n _ _ = _ |- _ =>
    destruct (H n) as (_ & _ & Hi); rewrite Hq in Hi; cbn in Hi; congruence
  end.

(** The two ways into the reconnecting part of [_ensure_connected]. *)
Ltac enter_reconnect Hneed :=
  unfold needs_session in Hneed;
  unfold issued, _ensure_connected; unfold_driver; cbn;
  destruct Hneed as [[Hc ->] | (t & Hc & Ha & ->)];
  rewrite Hc; cbn; [| rewrite Ha; cbn].

(** Closes the side conditions of [quiet] and [closes]. *)
Ltac frame_facts :=
  repeat split; cbn; try reflexivity; try lia; try congruence.

(** Picks the case of [reconnects] that a branch falls in. *)
Ltac reconnect_facts :=
  split; [reflexivity | split; [reflexivity | split; [lia |]]];
  first
    [ left; split; [congruence | reflexivity]
    | right; split;
      [ first [ left; congruence
              | right; eexists; split; [reflexivity | congruence] ]
      | first [ left; split; [congruence | reflexivity]
              | right; eexists; split; [| split; reflexivity]; lia ] ] ].

(** What a method issued, from how it left the trace. *)
Lemma issued_intro {A} (m : Py State A) (s : State) (d : list Event) :
  trace_of (snd (m s)) = (trace_of s ++ d)%list -> issued m s = d.
Proof. unfold issued. intros ->. apply drop_app_length. Qed.

(** ** [_ensure_started] *)

(** C8.  When the first [reload] shows the container running, nothing but
    the two reloads is requested: no start and no wait.  Otherwise one
    start is requested; when the engine accepts it, one sleep of two
    seconds and the closing reload follow, and when it does not, the
    method does not return normally. *)
Theorem ensure_started_noop_or_single_start (s : State) (a : Attrs) :
  env_inspect (oracle_of s) (now s) (self_cid s) = Ret a ->
  (Status a = "running" ->
   issued _ensure_started s = [EReload (self_cid s); EReload (self_cid s)])
  /\
  (Status a <> "running" ->
   match env_start (oracle_of s) (S (now s)) (self_cid s) with
   | Ret _ =>
     issued _ensure_started s =
     [EReload (self_cid s); EStart (self_cid s); ESleep 2;
      EReload (self_cid s)]
   | _ =>
     issued _ensure_started s = [EReload (self_cid s); EStart (self_cid s)]
     /\ forall u, fst (_ensure_started s) <> Ret u
   end).
Proof.
  intros Hinspect. split.
  - intros Hrun. apply issued_intro.
    unfold _ensure_started. unfold_driver. cbn.
    rewrite Hinspect. cbn. rewrite Hrun. crunch; trace_eq.
  - intros Hstop. apply String.eqb_neq in Hstop.
    assert (Hrun : forall X (x y : X),
               (if negb (Status a =? "running")%string then x else y) = x)
      by (intros; rewrite Hstop; reflexivity).
    destruct (env_start _ _ _) eqn:Hstart.
    + apply issued_intro.
      unfold _ensure_started. unfold_driver. cbn.
      rewrite Hinspect. cbn. rewrite Hrun. cbn. rewrite Hstart.
      crunch; trace_eq.
    + split.
      * apply issued_intro.
        unfold _ensure_started. unfold_driver. cbn.
        rewrite Hinspect. cbn. rewrite Hrun. cbn. rewrite Hstart. trace_eq.
      * intros u. unfold _ensure_started. unfold_driver. cbn.
        rewrite Hinspect. cbn. rewrite Hrun. cbn. rewrite Hstart. cbn.
        discriminate.
    + split.
      * apply issued_intro.
        unfold _ensure_started. unfold_driver. cbn.
        rewrite Hinspect. cbn. rewrite Hrun. cbn. rewrite Hstart. trace_eq.
      * intros u. unfold _ensure_started. unfold_driver. cbn.
        rewrite Hinspect. cbn. rewrite Hrun. cbn. rewrite Hstart. cbn.
        discriminate.
Qed.

Lemma ensure_started_witness :
  let s := Sample.unstarted Sample.cold in
  env_inspect (oracle_of s) (now s) (self_cid s) = Ret Sample.created
  /\ issued _ensure_started s =
     [EReload Sample.cid; EStart Sample.cid; ESleep 2; EReload Sample.cid].
Proof.
  split; [reflexivity |].
  pose proof (ensure_started_noop_or_single_start
                (Sample.unstarted Sample.cold) Sample.created eq_refl)
    as [_ H].
  exact (H ltac:(discriminate)).
Defined.

Example ensure_started_when_running :
  issued _ensure_started (Sample.fresh Sample.calm) =
  [EReload Sample.cid; EReload Sample.cid].
Proof. reflexivity. Qed.

(** ** [KaliContainer.__init__] *)

(** A sandbox comes out with no client and with the ids of its container. *)
Lemma create_container_fresh (m : KaliManager) (w : World)
  (kc : KaliContainer) :
  fst (create_container m w) = Ret kc ->
  _ssh_client kc = None
  /\ kc_id kc = c_id (_container kc)
  /\ In (kc_id kc) (w_containers (snd (create_container m w))).
Proof.
  unfold create_container, KaliContainer_init, containers_create, as_self,
    _ensure_started.
  unfold_driver.
  crunch; intros H; try discriminate.
  all: injection H as <-; cbn; repeat split.
  all: apply in_or_app; right; left; reflexivity.
Qed.

(** When the start fails the constructor raises: the caller gets no object
    to call [destroy] on, and the container stays on the host. *)
Example create_container_start_fails :
  let out := create_container Sample.manager
               (Sample.empty_world Sample.start_fails) in
  fst out = Raise APIError /\ w_containers (snd out) = [Sample.cid].
Proof. split; reflexivity. Qed.

(** ** [KaliManager.__init__] *)



(** The ping is requested whenever the client could be built, and a manager
    only comes out when the ping was answered. *)
Lemma manager_init_pings (w : World) :
  env_from_env (w_env w) (w_clock w) = Ret tt ->
  (exists rest,
     w_trace (snd (KaliManager_init w)) =
     (w_trace w ++ EFromEnv :: EPing :: rest)%list)
  /\ (forall m, fst (KaliManager_init w) = Ret m ->
      env_ping (w_env w) (S (w_clock w)) = Ret tt).
Proof.
  intros Henv.
  unfold KaliManager_init, docker_from_env, DockerClient_ping.
  unfold_world. cbn. rewrite Henv. cbn.
  destruct (env_ping _ _) as [[] | e |] eqn:Hping; cbn; split;
    try (intros m; discriminate); try (intros m _; reflexivity).
  - exists []. rewrite <- ?app_assoc. reflexivity.
  - eexists. rewrite <- ?app_assoc. reflexivity.
  - exists []. rewrite <- ?app_assoc. reflexivity.
Qed.

(** ** [send_command_and_get_output] *)



(** While the wait on the channel is not answered, neither is the caller. *)
Lemma execute_blocks_until_exit (s : State) (command : str) (timeout : Z)
  (t : Tid) :
  _ssh_client (self s) = Some {| _transport := Some t |} ->
  env_is_active (oracle_of s) (now s) t = true ->
  env_exec_command (oracle_of s) (S (now s)) t command timeout = Ret tt ->
  env_recv_exit_status (oracle_of s) (S (S (now s))) (S (now s)) = Diverge ->
  fst (send_command_and_get_output command timeout s) = Diverge.
Proof.
  intros Hc Ha He Hr.
  unfold send_command_and_get_output, _ensure_connected.
  unfold_driver. cbn. rewrite Hc. cbn. rewrite Ha. cbn. rewrite Hc. cbn.
  rewrite He. cbn. rewrite Hr. reflexivity.
Qed.

(** With a live session, an accepted command and a reported exit status,
    the method does return. *)
Lemma execute_returns (s : State) (command : str) (timeout : Z)
  (t : Tid) (code : Z) :
  _ssh_client (self s) = Some {| _transport := Some t |} ->
  env_is_active (oracle_of s) (now s) t = true ->
  env_exec_command (oracle_of s) (S (now s)) t command timeout = Ret tt ->
  env_recv_exit_status (oracle_of s) (S (S (now s))) (S (now s)) = Ret code ->
  fst (send_command_and_get_output command timeout s) = Ret PyNone.
Proof.
  intros Hc Ha He Hr.
  unfold send_command_and_get_output, _ensure_connected.
  unfold_driver. cbn. rewrite Hc. cbn. rewrite Ha. cbn. rewrite Hc. cbn.
  rewrite He. cbn. rewrite Hr. reflexivity.
Qed.

(** C1, as the code has it.  The method has no [return] statement: whenever
    it returns, the caller receives [None]; the exit status the wait
    reported is printed and dropped. *)
Theorem execute_returns_None
  (s : State) (command : str) (timeout : Z) (v : pyval) :
  fst (send_command_and_get_output command timeout s) = Ret v ->
  v = PyNone
  /\ exists pre ch code,
       issued (send_command_and_get_output command timeout) s =
       (pre ++ [ERecvExitStatus ch (Ret code);
                EPrint (msg_finished code)])%list.
Proof.
  unfold issued, send_command_and_get_output, _ensure_connected.
  unfold_driver.
  crunch; intros H; try discriminate.
  all: split; [congruence |].
  all: drop_prefix.
  all: first
    [ eexists [_; _], _, _; reflexivity
    | eexists [_; _; _], _, _; reflexivity
    | eexists [_; _; _; _], _, _; reflexivity
    | eexists [_; _; _; _; _], _, _; reflexivity
    | eexists [_; _; _; _; _; _], _, _; reflexivity ].
Qed.

Lemma execute_returns_None_witness :
  let s := Sample.fresh Sample.calm in
  let command := lit "exit 7" in
  fst (send_command_and_get_output command DEFAULT_TIMEOUT s) = Ret PyNone
  /\ exists pre ch code,
       issued (send_command_and_get_output command DEFAULT_TIMEOUT) s =
       (pre ++ [ERecvExitStatus ch (Ret code);
                EPrint (msg_finished code)])%list.
Proof.
  split; [reflexivity |].
  exact (proj2 (execute_returns_None
                  (Sample.fresh Sample.calm) (lit "exit 7") DEFAULT_TIMEOUT
                  PyNone eq_refl)).
Defined.

(** C1, as the specification words it, does not hold: the remote command
    exits with status 7, the driver is told so, and the caller receives
    [None], not [7]. *)
Lemma execute_does_not_return_exit_status :
  let s := Sample.fresh Sample.calm in
  let out := send_command_and_get_output (lit "exit 7") DEFAULT_TIMEOUT s in
  exit_status_known (world (snd out)) 3%nat 7
  /\ fst out = Ret PyNone
  /\ fst out <> Ret (PyInt 7).
Proof.
  repeat split.
  - unfold exit_status_known. cbn. do 5 right. left. reflexivity.
  - discriminate.
Qed.

(** ** The text decoder *)

Lemma apply_errors_ignore (items : list Utf8Item) :
  apply_errors Ignore items = inr (chars_of items).
Proof.
  induction items as [| [c | n] rest IH]; cbn.
  - reflexivity.
  - rewrite IH. reflexivity.
  - exact IH.
Qed.

Lemma apply_errors_replace (items : list Utf8Item) :
  apply_errors Replace items = inr (substituted items).
Proof.
  induction items as [| [c | n] rest IH]; cbn; try rewrite IH; reflexivity.
Qed.

Lemma apply_errors_strict (items : list Utf8Item) :
  apply_errors Strict items =
  match invalid_count items with
  | O => inr (chars_of items)
  | S _ => inl UnicodeDecodeError
  end.
Proof.
  induction items as [| [c | n] rest IH]; cbn; try reflexivity.
  rewrite IH. destruct (invalid_count rest); reflexivity.
Qed.

(** ['ignore'] never raises and keeps exactly the well-formed characters. *)
Lemma decode_ignore (data : list byte) :
  decode_utf8 Ignore data = inr (chars_of (utf8_scan (map Byte.to_N data))).
Proof. unfold decode_utf8. apply apply_errors_ignore. Qed.

Lemma decode_replace (data : list byte) :
  decode_utf8 Replace data =
  inr (substituted (utf8_scan (map Byte.to_N data))).
Proof. unfold decode_utf8. apply apply_errors_replace. Qed.

(** Substitution keeps one character per ill-formed sequence; ['ignore']
    keeps none. *)
Lemma substituted_length (items : list Utf8Item) :
  length (substituted items) =
  (length (chars_of items) + invalid_count items)%nat.
Proof.
  induction items as [| [c | n] rest IH]; cbn; try rewrite IH; lia.
Qed.

Lemma ignore_is_substitution_iff_valid (items : list Utf8Item) :
  chars_of items = substituted items <-> invalid_count items = 0%nat.
Proof.
  split.
  - intros H. apply (f_equal (@length _)) in H.
    rewrite substituted_length in H. lia.
  - induction items as [| [c | n] rest IH]; cbn; intros H.
    + reflexivity.
    + rewrite IH by exact H. reflexivity.
    + discriminate.
Qed.

(** ** [copy_file_from_container] *)

(** C3, as the code has it.  When the engine reports the path absent, and
    when the archive it sends decodes to no entry, the method does not
    raise; it returns the sentence that names the path. *)
Theorem copy_file_absent_returns_message (s : State) (path : str) :
  (exists e,
     env_get_archive (oracle_of s) (now s) (self_cid s) path = Raise e
     /\ isinstance_NotFound e = true)
  \/ (exists bits,
        env_get_archive (oracle_of s) (now s) (self_cid s) path = Ret bits
        /\ env_tarfile_open (oracle_of s) (BytesIO_of_chunks bits) = inr []) ->
  fst (copy_file_from_container path s) = Ret (PyStr (msg_no_output path)).
Proof.
  intros [(e & Hget & He) | (bits & Hget & Htar)];
    unfold copy_file_from_container; unfold_driver; cbn;
    rewrite Hget; cbn.
  - rewrite He. reflexivity.
  - rewrite Htar. reflexivity.
Qed.

Lemma copy_file_absent_witness :
  let path := lit "/tmp/missing.txt" in
  fst (copy_file_from_container path (Sample.fresh Sample.no_file))
  = Ret (PyStr (msg_no_output path))
  /\ fst (copy_file_from_container path (Sample.fresh Sample.empty_archive))
     = Ret (PyStr (msg_no_output path)).
Proof.
  split.
  - apply copy_file_absent_returns_message.
    left. exists NotFound. split; reflexivity.
  - apply copy_file_absent_returns_message.
    right. exists [Sample.hello]. split; reflexivity.
Defined.

(** C3, as the specification words it, does not hold: for a path the
    engine does not know and for an archive without entries the content
    handed back is a sentence of about fifty characters, not the empty
    text. *)
Lemma copy_file_absent_content_not_empty :
  let path := lit "/tmp/missing.txt" in
  let said := lit "Command produced no output file at '/tmp/missing.txt'." in
  fst (copy_file_from_container path (Sample.fresh Sample.no_file))
  = Ret (PyStr said)
  /\ fst (copy_file_from_container path (Sample.fresh Sample.empty_archive))
     = Ret (PyStr said)
  /\ said <> [].
Proof. repeat split. discriminate. Qed.

(** The result when the archive starts with a file. *)
Lemma copy_file_first_file
  (s : State) (path : str) (bits : list (list byte))
  (member : TarInfo) (others : list TarInfo) (data : list byte) :
  env_get_archive (oracle_of s) (now s) (self_cid s) path = Ret bits ->
  env_tarfile_open (oracle_of s) (BytesIO_of_chunks bits)
  = inr (member :: others) ->
  extractfile member = FileObject data ->
  fst (copy_file_from_container path s)
  = Ret (PyStr (chars_of (utf8_scan (map Byte.to_N data)))).
Proof.
  intros Hget Htar Hfile.
  unfold copy_file_from_container. unfold_driver. cbn.
  rewrite Hget. cbn. rewrite Htar. cbn. rewrite Hfile. cbn.
  rewrite decode_ignore. reflexivity.
Qed.

(** C5, as the code has it.  When the first entry of the archive is a file,
    its bytes are decoded with ['ignore']: the method does not raise, the
    well-formed characters are kept in order and every ill-formed sequence
    is dropped, so the text is shorter than the text with substitutions by
    one character for each ill-formed sequence. *)
Theorem copy_file_drops_invalid_sequences
  (s : State) (path : str) (bits : list (list byte))
  (member : TarInfo) (others : list TarInfo) (data : list byte) :
  env_get_archive (oracle_of s) (now s) (self_cid s) path = Ret bits ->
  env_tarfile_open (oracle_of s) (BytesIO_of_chunks bits)
  = inr (member :: others) ->
  extractfile member = FileObject data ->
  let items := utf8_scan (map Byte.to_N data) in
  fst (copy_file_from_container path s) = Ret (PyStr (chars_of items))
  /\ decode_utf8 Replace data = inr (substituted items)
  /\ length (substituted items)
     = (length (chars_of items) + invalid_count items)%nat.
Proof.
  intros Hget Htar Hfile items. repeat split.
  - exact (copy_file_first_file s path bits member others data
             Hget Htar Hfile).
  - apply decode_replace.
  - apply substituted_length.
Qed.

Lemma copy_file_drops_invalid_sequences_witness :
  fst (copy_file_from_container (lit "/tmp/out.txt")
         (Sample.fresh (Sample.holding [x61; xff; x62])))
  = Ret (PyStr (chars_of (utf8_scan [97; 255; 98]%N))).
Proof.
  exact (proj1 (copy_file_drops_invalid_sequences
           (Sample.fresh (Sample.holding [x61; xff; x62]))
           (lit "/tmp/out.txt") [[x61; xff; x62]]
           {| name := "out.txt"; extractfile := FileObject [x61; xff; x62] |}
           [] [x61; xff; x62] eq_refl eq_refl eq_refl)).
Defined.

(** C5, as the specification words it, does not hold: the file holds [a],
    the byte FF and [b]; decoding by substitution would give three
    characters with U+FFFD in the middle, the method returns the two
    letters. *)
Lemma copy_file_does_not_substitute :
  let data := [x61; xff; x62] in
  fst (copy_file_from_container (lit "/tmp/out.txt")
         (Sample.fresh (Sample.holding data)))
  = Ret (PyStr [97; 98]%N)
  /\ decode_utf8 Replace data = inr [97; REPLACEMENT_CHARACTER; 98]%N
  /\ ~ In REPLACEMENT_CHARACTER [97; 98]%N.
Proof.
  repeat split.
  cbn. intros [H | [H | []]]; discriminate.
Qed.

(** C10, as the code has it.  Two archives that start with the same file
    give the same result, whatever follows in either: the text of the first
    entry, decoded with ['ignore']. *)
Theorem copy_file_reads_first_entry_only
  (s1 s2 : State) (path : str) (bits1 bits2 : list (list byte))
  (member : TarInfo) (others1 others2 : list TarInfo) (data : list byte) :
  env_get_archive (oracle_of s1) (now s1) (self_cid s1) path = Ret bits1 ->
  env_tarfile_open (oracle_of s1) (BytesIO_of_chunks bits1)
  = inr (member :: others1) ->
  env_get_archive (oracle_of s2) (now s2) (self_cid s2) path = Ret bits2 ->
  env_tarfile_open (oracle_of s2) (BytesIO_of_chunks bits2)
  = inr (member :: others2) ->
  extractfile member = FileObject data ->
  fst (copy_file_from_container path s1)
  = fst (copy_file_from_container path s2)
  /\ exists text,
       decode_utf8 Ignore data = inr text
       /\ fst (copy_file_from_container path s1) = Ret (PyStr text).
Proof.
  intros Hget1 Htar1 Hget2 Htar2 Hfile.
  rewrite (copy_file_first_file
             s1 path bits1 member others1 data Hget1 Htar1 Hfile).
  rewrite (copy_file_first_file
             s2 path bits2 member others2 data Hget2 Htar2 Hfile).
  split; [reflexivity |].
  eexists. split; [apply decode_ignore | reflexivity].
Qed.

Lemma copy_file_reads_first_entry_only_witness :
  fst (copy_file_from_container (lit "/tmp/out.txt")
         (Sample.fresh Sample.calm))
  = fst (copy_file_from_container (lit "/tmp/out.txt")
           (Sample.fresh Sample.two_files)).
Proof.
  exact (proj1 (copy_file_reads_first_entry_only
           (Sample.fresh Sample.calm) (Sample.fresh Sample.two_files)
           (lit "/tmp/out.txt") [Sample.hello] [Sample.hello]
           {| name := "out.txt"; extractfile := FileObject Sample.hello |}
           [] [ {| name := "other.txt"; extractfile := FileObject [x78] |} ]
           Sample.hello eq_refl eq_refl eq_refl eq_refl eq_refl)).
Defined.

(** C10, as the specification words it, does not hold: the archive of a
    directory starts with the entry of the directory itself, for which
    [extractfile] gives no file object; [read] on it raises and the
    clauses for [NotFound] and [IndexError] do not catch it. *)
Lemma copy_file_directory_first_raises :
  let s := Sample.fresh Sample.directory_first in
  env_tarfile_open (oracle_of s) (BytesIO_of_chunks [Sample.hello])
  = inr [ {| name := "tmp"; extractfile := NoFileObject |};
          {| name := "tmp/out.txt"; extractfile := FileObject Sample.hello |} ]
  /\ fst (copy_file_from_container (lit "/tmp") s) = Raise AttributeError
  /\ forall text, fst (copy_file_from_container (lit "/tmp") s)
                  <> Ret (PyStr text).
Proof. repeat split. discriminate. Qed.

(** ** [destroy] *)

Lemma destroy_returns (s : State) :
  engine_tolerable (oracle_of s) (self_cid s) ->
  fst (destroy s) = Ret PyNone.
Proof.
  intros H. unfold engine_tolerable in H. unfold destroy. unfold_driver.
  crunch; try reflexivity; try congruence; intolerable H.
Qed.

(** [destroy] leaves the oracle and the container id alone, and leaves the
    client, if there is one, without a transport. *)
Lemma destroy_frame (s : State) :
  oracle_of (snd (destroy s)) = oracle_of s
  /\ self_cid (snd (destroy s)) = self_cid s
  /\ forall c, _ssh_client (self (snd (destroy s))) = Some c ->
               _transport c = None.
Proof.
  unfold destroy. unfold_driver.
  crunch; repeat split; intros c' Hc'; cbn in *;
    first [congruence | injection Hc' as <-; reflexivity].
Qed.

(** With no transport to close and a container the engine no longer
    knows, [destroy] only asks for the reload and returns. *)
Lemma destroy_container_gone (s : State) (e : exn) :
  (forall c, _ssh_client (self s) = Some c -> _transport c = None) ->
  env_inspect (oracle_of s) (now s) (self_cid s) = Raise e ->
  isinstance_NotFound e = true ->
  fst (destroy s) = Ret PyNone
  /\ issued destroy s = [EReload (self_cid s)].
Proof.
  intros Hc Hq He. unfold issued, destroy. unfold_driver. cbn.
  destruct (_ssh_client (self s)) as [c |] eqn:Hclient; cbn.
  - pose proof (Hc c eq_refl) as Ht. destruct c as [t]. cbn in Ht.
    subst t. rewrite Hclient. cbn. rewrite Hq. cbn. rewrite He. cbn.
    split; [reflexivity |]. rewrite drop_app_length. reflexivity.
  - rewrite Hq. cbn. rewrite He. cbn.
    split; [reflexivity |]. rewrite drop_app_length. reflexivity.
Qed.

(** C4, as the code has it.  In whatever state the sandbox is (no client,
    a client that never connected, a connected client), [destroy] returns
    without raising as long as the engine answers each of its requests
    with success or with [NotFound].  That also holds for a second call
    right after the first; when the engine then reports the container
    gone, the second call asks for nothing but the reload. *)
Theorem destroy_swallows_not_found (s : State) :
  engine_tolerable (oracle_of s) (self_cid s) ->
  fst (destroy s) = Ret PyNone
  /\ fst (destroy (snd (destroy s))) = Ret PyNone
  /\ forall e,
       env_inspect (oracle_of s) (now (snd (destroy s))) (self_cid s)
       = Raise e ->
       issued destroy (snd (destroy s)) = [EReload (self_cid s)].
Proof.
  intros H.
  destruct (destroy_frame s) as (Henv & Hcid & Hclient).
  split; [exact (destroy_returns s H) |].
  split.
  - apply destroy_returns. rewrite Henv, Hcid. exact H.
  - intros e Hq.
    assert (He : isinstance_NotFound e = true).
    { destruct (H (now (snd (destroy s)))) as (Hi & _ & _).
      rewrite Hq in Hi. exact Hi. }
    destruct (destroy_container_gone (snd (destroy s)) e Hclient)
      as [_ Hi].
    + rewrite Henv, Hcid. exact Hq.
    + exact He.
    + rewrite Hcid in Hi. exact Hi.
Qed.

Lemma destroy_swallows_not_found_witness :
  let s := Sample.fresh Sample.removable in
  fst (destroy s) = Ret PyNone
  /\ fst (destroy (snd (destroy s))) = Ret PyNone
  /\ issued destroy (snd (destroy s)) = [EReload Sample.cid].
Proof.
  assert (H : engine_tolerable (oracle_of (Sample.fresh Sample.removable))
                               (self_cid (Sample.fresh Sample.removable))).
  { intros n. destruct n as [| [| [| n]]]; repeat split. }
  destruct (destroy_swallows_not_found (Sample.fresh Sample.removable) H)
    as (H1 & H2 & H3).
  split; [exact H1 | split; [exact H2 | exact (H3 NotFound eq_refl)]].
Defined.

(** C4, as the specification words it, does not hold: when the engine
    cannot be reached the reload inside [destroy] raises, and when the
    engine refuses to stop the container the stop raises; neither error is
    [NotFound], so both leave the method. *)
Lemma destroy_raises_engine_errors :
  fst (destroy (Sample.fresh Sample.engine_down)) = Raise ConnectionError
  /\ fst (destroy (Sample.fresh Sample.stop_fails)) = Raise APIError.
Proof. split; reflexivity. Qed.

(** ** [_ensure_connected] *)

(** A live session is reused: one question to the transport, nothing else,
    and [self] is left as it was. *)
Lemma ensure_connected_reuses (s : State) (t : Tid) :
  _ssh_client (self s) = Some {| _transport := Some t |} ->
  env_is_active (oracle_of s) (now s) t = true ->
  fst (_ensure_connected s) = Ret tt
  /\ self (snd (_ensure_connected s)) = self s
  /\ issued _ensure_connected s = [EIsActive t].
Proof.
  intros Hc Ha. unfold issued, _ensure_connected. unfold_driver. cbn.
  rewrite Hc. cbn. rewrite Ha. cbn.
  repeat split. rewrite drop_app_length. reflexivity.
Qed.

(** Without a live session and without a published port the method raises
    [Exception] with the message about the port. *)
Lemma ensure_connected_port_unpublished (s : State) (n : nat) (a : Attrs) :
  needs_session s n ->
  env_inspect (oracle_of s) n (self_cid s) = Ret a ->
  host_port_of (Ports a) = None ->
  fst (_ensure_connected s) = Raise (Exception_ (msg_no_port (kc_id (self s)))).
Proof.
  intros Hneed Hq Hport. unfold host_port_of in Hport.
  enter_reconnect Hneed; rewrite Hq; cbn.
  all: destruct (default None (Ports a !! "22/tcp")) as [[| b l] |];
    try reflexivity.
  all: rewrite Hport; reflexivity.
Qed.



Lemma ensure_connected_port_unpublished_witness :
  fst (_ensure_connected (Sample.fresh Sample.port_hidden))
  = Raise (Exception_ (msg_no_port Sample.cid)).
Proof.
  exact (ensure_connected_port_unpublished
           (Sample.fresh Sample.port_hidden) 0%nat Sample.created
           (or_introl (conj eq_refl eq_refl)) eq_refl eq_refl).
Defined.

Example ensure_connected_sample_opens_session :
  issued _ensure_connected (Sample.fresh Sample.calm)
  = [EReload Sample.cid; EPathExists (lit "/root/.ssh/id_ecdsa");
     EConnect "localhost" 32768 "root" (lit "/root/.ssh/id_ecdsa") 30].
Proof. reflexivity. Qed.

(** A client that holds no transport makes the liveness test itself raise:
    [get_transport()] is [None], and [None] has no [is_active]. *)
Lemma ensure_connected_stale_client (s : State) :
  _ssh_client (self s) = Some {| _transport := None |} ->
  _ensure_connected s = (Raise AttributeError, s).
Proof.
  intros Hc. unfold _ensure_connected. unfold_driver. cbn.
  rewrite Hc. reflexivity.
Qed.

(** C6: the code at the failing input.  The first call finds the shell
    service not yet listening: the connection is refused and the client it
    had just created stays on [self] without a transport.  The second call,
    made when a connection would be accepted, never gets to the port, the
    key or the connection: the liveness test raises [AttributeError] and
    nothing is requested. *)
Theorem ensure_connected_after_refused_connection :
  let s0 := Sample.fresh Sample.sshd_late in
  let s1 := snd (_ensure_connected s0) in
  fst (_ensure_connected s0) = Raise NoValidConnectionsError
  /\ _ssh_client (self s1) = Some {| _transport := None |}
  /\ env_connect (oracle_of s1) (now s1 + 2) 32768
       (env_expanduser (oracle_of s1) KEY_PATH) = Connected
  /\ fst (_ensure_connected s1) = Raise AttributeError
  /\ issued _ensure_connected s1 = [].
Proof. repeat split. Qed.

(** The same happens to any call that follows [destroy], which closes the
    client and leaves it on [self]. *)
Example execute_after_destroy_raises :
  let s0 := Sample.fresh Sample.calm in
  let s1 := snd (send_command_and_get_output (lit "id") 1800 s0) in
  let s2 := snd (destroy s1) in
  fst (destroy s1) = Ret PyNone
  /\ fst (send_command_and_get_output (lit "id") 1800 s2)
     = Raise AttributeError.
Proof. split; reflexivity. Qed.

(** ** Sessions over the life of a sandbox *)

Lemma copy_file_quiet (path : str) (s : State) :
  quiet s (snd (copy_file_from_container path s)).
Proof.
  unfold quiet, held, copy_file_from_container. unfold_driver.
  crunch; frame_facts.
Qed.

Lemma destroy_closes (s : State) : closes s (snd (destroy s)).
Proof.
  unfold closes, held, destroy. unfold_driver.
  crunch; frame_facts.
  all: rewrite ?app_nil_r; try reflexivity.
Qed.

Lemma ensure_connected_reconnects (s : State) :
  reconnects s (snd (_ensure_connected s)).
Proof.
  unfold reconnects, held, _ensure_connected. unfold_driver.
  crunch; reconnect_facts.
Qed.

Lemma execute_reconnects (command : str) (timeout : Z) (s : State) :
  reconnects s (snd (send_command_and_get_output command timeout s)).
Proof.
  unfold reconnects, held, send_command_and_get_output, _ensure_connected.
  unfold_driver.
  crunch; reconnect_facts.
Qed.

Lemma closed_false_earlier (t : Tid) (l l' : list Tid) :
  incl l l' ->
  existsb (Nat.eqb t) l' = false -> existsb (Nat.eqb t) l = false.
Proof.
  intros Hincl H'.
  destruct (existsb (Nat.eqb t) l) eqn:H; [| reflexivity].
  apply existsb_exists in H as (x & Hin & Hx).
  assert (Hex : existsb (Nat.eqb t) l' = true)
    by (apply existsb_exists; exists x; split; [apply Hincl, Hin | exact Hx]).
  congruence.
Qed.

(** A transport that is live now was live at every earlier moment. *)
Lemma live_earlier (w w' : World) (t : Tid) :
  stays_dead (w_env w) ->
  w_env w' = w_env w ->
  incl (w_closed w) (w_closed w') ->
  (w_clock w <= w_clock w')%nat ->
  live w' t = true -> live w t = true.
Proof.
  intros Hdead Henv Hincl Hle. unfold live. rewrite Henv.
  intros H. apply andb_true_iff in H as [Hc Ha].
  apply negb_true_iff in Hc.
  apply andb_true_iff. split.
  - apply negb_true_iff. exact (closed_false_earlier t _ _ Hincl Hc).
  - destruct (env_is_active (w_env w) (w_clock w) t) eqn:Hnow;
      [reflexivity |].
    rewrite (Hdead t _ _ Hle Hnow) in Ha. discriminate.
Qed.

Lemma inv_quiet (s s' : State) :
  stays_dead (oracle_of s) ->
  session_inv s -> quiet s s' -> session_inv s'.
Proof.
  intros Hdead (Hnd & Hlt & Hlive & Hown) (Henv & Hcl & Hses & Hheld & Hle).
  unfold session_inv. rewrite Hses, Hheld. repeat split.
  - exact Hnd.
  - intros t Hin. specialize (Hlt t Hin). lia.
  - intros t Hin Hl. apply (Hlive t Hin).
    apply (live_earlier (world s) (world s') t Hdead Henv); try exact Hl.
    + rewrite Hcl. apply incl_refl.
    + exact Hle.
  - exact Hown.
Qed.

Lemma inv_reconnects (s s' : State) :
  stays_dead (oracle_of s) ->
  session_inv s -> reconnects s s' -> session_inv s'.
Proof.
  intros Hdead Hinv (Henv & Hcl & Hle & Hcase).
  destruct Hcase as [[Hheld Hses] | [Hgone Hnew]].
  - apply (inv_quiet s s' Hdead Hinv). repeat split; assumption.
  - destruct Hinv as (Hnd & Hlt & Hlive & Hown).
    assert (Hnone : forall t, In t (w_sessions (world s)) ->
                              live (world s') t = true -> False).
    { intros t Hin Hl.
      assert (Hl0 : live (world s) t = true).
      { apply (live_earlier (world s) (world s') t Hdead Henv); try exact Hl.
        - rewrite Hcl. apply incl_refl.
        - exact Hle. }
      specialize (Hlive t Hin Hl0).
      destruct Hgone as [Hg | (t0 & Hg & Hoff)]; [congruence |].
      assert (t0 = t) by congruence. subst t0.
      unfold live in Hl0. apply andb_true_iff in Hl0 as [_ Hon].
      unfold oracle_of, now in Hoff. congruence. }
    destruct Hnew as [[Hheld Hses] | (c & Hc & Hheld & Hses)];
      unfold session_inv; rewrite Hses, Hheld; repeat split.
    + exact Hnd.
    + intros t Hin. specialize (Hlt t Hin). lia.
    + intros t Hin Hl. destruct (Hnone t Hin Hl).
    + intros t Ht. discriminate.
    + apply List.NoDup_app; [exact Hnd | repeat constructor; intros [] |].
      intros a Hin [Ha | []]. subst a. specialize (Hlt c Hin). lia.
    + intros t Hin. apply in_app_or in Hin as [Hin | [<- | []]].
      * specialize (Hlt t Hin). lia.
      * lia.
    + intros t Hin Hl. apply in_app_or in Hin as [Hin | [<- | []]].
      * destruct (Hnone t Hin Hl).
      * reflexivity.
    + intros t Ht. injection Ht as <-. apply in_or_app. right. left.
      reflexivity.
Qed.

Lemma inv_closes (s s' : State) :
  stays_dead (oracle_of s) ->
  session_inv s -> closes s s' ->
  session_inv s' /\ live_sessions (world s') = [].
Proof.
  intros Hdead (Hnd & Hlt & Hlive & Hown) (Henv & Hses & Hheld & Hle & Hcl).
  assert (Hnone : forall t, In t (w_sessions (world s)) ->
                            live (world s') t = true -> False).
  { intros t Hin Hl.
    assert (Hl0 : live (world s) t = true).
    { apply (live_earlier (world s) (world s') t Hdead Henv); try exact Hl.
      - rewrite Hcl. apply incl_appl, incl_refl.
      - exact Hle. }
    specialize (Hlive t Hin Hl0).
    unfold live in Hl. apply andb_true_iff in Hl as [Hopen _].
    apply negb_true_iff in Hopen.
    rewrite Hcl, Hlive, existsb_app in Hopen. cbn in Hopen.
    rewrite Nat.eqb_refl, orb_true_r in Hopen. discriminate. }
  split.
  - unfold session_inv. rewrite Hses, Hheld. repeat split.
    + exact Hnd.
    + intros t Hin. specialize (Hlt t Hin). lia.
    + intros t Hin Hl. destruct (Hnone t Hin Hl).
    + intros t Ht. discriminate.
  - unfold live_sessions. rewrite Hses.
    destruct (List.filter (live (world s')) (w_sessions (world s)))
      as [| t l] eqn:Hf; [reflexivity |].
    assert (Hin : In t (List.filter (live (world s')) (w_sessions (world s))))
      by (rewrite Hf; left; reflexivity).
    apply filter_In in Hin as [Hin Hl]. destruct (Hnone t Hin Hl).
Qed.

Lemma live_sessions_at_most_one (s : State) :
  session_inv s -> (length (live_sessions (world s)) <= 1)%nat.
Proof.
  intros (Hnd & _ & Hlive & _). unfold live_sessions.
  pose proof (List.NoDup_filter (live (world s)) Hnd) as Hnd'.
  assert (Hall : forall t,
             In t (List.filter (live (world s)) (w_sessions (world s))) ->
             held s = Some t).
  { intros t Hin. apply filter_In in Hin as [Hin Hl]. exact (Hlive t Hin Hl). }
  destruct (List.filter (live (world s)) (w_sessions (world s)))
    as [| x [| y l]]; cbn; try lia.
  assert (Hx : held s = Some x) by (apply Hall; left; reflexivity).
  assert (Hy : held s = Some y) by (apply Hall; right; left; reflexivity).
  assert (x = y) by congruence. subst y.
  inversion Hnd' as [| ? ? Hnotin _]. destruct Hnotin. left. reflexivity.
Qed.

(** Every operation keeps the oracle and the invariant. *)
Lemma run_op_keeps (op : Op) (s : State) :
  stays_dead (oracle_of s) -> session_inv s ->
  oracle_of (snd (run_op op s)) = oracle_of s
  /\ session_inv (snd (run_op op s)).
Proof.
  intros Hdead Hinv. destruct op as [command timeout | path |]; cbn.
  - pose proof (execute_reconnects command timeout s) as Hstep.
    split; [apply Hstep | exact (inv_reconnects _ _ Hdead Hinv Hstep)].
  - pose proof (copy_file_quiet path s) as Hstep.
    split; [apply Hstep | exact (inv_quiet _ _ Hdead Hinv Hstep)].
  - pose proof (destroy_closes s) as Hstep.
    split; [apply Hstep | exact (proj1 (inv_closes _ _ Hdead Hinv Hstep))].
Qed.

Lemma run_ops_keeps (ops : list Op) (s : State) :
  stays_dead (oracle_of s) -> session_inv s ->
  oracle_of (run_ops ops s) = oracle_of s
  /\ session_inv (run_ops ops s).
Proof.
  revert s. induction ops as [| op rest IH]; intros s Hdead Hinv; cbn.
  - split; [reflexivity | exact Hinv].
  - destruct (run_op_keeps op s Hdead Hinv) as [Henv Hinv'].
    destruct (run_op op s) as [[v | e |] s1]; cbn in *.
    + destruct (IH s1) as [Henv2 Hinv2];
        [rewrite Henv; exact Hdead | exact Hinv' |].
      split; [congruence | exact Hinv2].
    + destruct (IH s1) as [Henv2 Hinv2];
        [rewrite Henv; exact Hdead | exact Hinv' |].
      split; [congruence | exact Hinv2].
    + split; assumption.
Qed.

Lemma fresh_session_inv (s : State) :
  _ssh_client (self s) = None ->
  w_sessions (world s) = [] -> session_inv s.
Proof.
  intros Hc H. unfold session_inv, held. rewrite H, Hc.
  repeat split;
    [constructor | intros t [] | intros t [] | intros t Ht; discriminate].
Qed.

(** C9.  Take a sandbox as [create_container] leaves it (no client, no
    transport opened) in a world where a transport that went inactive stays
    inactive.  After any sequence of [send_command_and_get_output],
    [copy_file_from_container] and [destroy], in any order and whatever
    each of them returned or raised: at most one of the transports the
    sandbox has opened is live, and the transport it holds is among those
    it opened; [_ensure_connected] opens another only when
    no transport is held or the held one has just answered that it is not
    active; [destroy] closes the held transport and leaves none live. *)
Theorem at_most_one_live_session (s : State) (ops : list Op) :
  stays_dead (oracle_of s) ->
  _ssh_client (self s) = None ->
  w_sessions (world s) = [] ->
  let s' := run_ops ops s in
  (length (live_sessions (world s')) <= 1)%nat
  /\ (forall t, held s' = Some t -> In t (w_sessions (world s')))
  /\ (w_sessions (world (snd (_ensure_connected s'))) <> w_sessions (world s') ->
      held s' = None
      \/ exists t, held s' = Some t
                   /\ env_is_active (oracle_of s') (now s') t = false)
  /\ (forall t, held s' = Some t ->
                In t (w_closed (world (snd (destroy s')))))
  /\ live_sessions (world (snd (destroy s'))) = [].
Proof.
  intros Hdead Hclient Hnew s'.
  destruct (run_ops_keeps ops s Hdead (fresh_session_inv s Hclient Hnew))
    as [Henv Hinv].
  fold s' in Henv, Hinv.
  assert (Hdead' : stays_dead (oracle_of s')) by (rewrite Henv; exact Hdead).
  split; [exact (live_sessions_at_most_one s' Hinv) |].
  split; [exact (proj2 (proj2 (proj2 Hinv))) |].
  split; [| split].
  - intros Hgrew.
    destruct (ensure_connected_reconnects s')
      as (_ & _ & _ & [[_ Hsame] | [Hgone [[_ Hsame] | _]]]);
      try exact Hgone; congruence.
  - intros t Hheld.
    destruct (destroy_closes s') as (_ & _ & _ & _ & Hcl).
    rewrite Hcl, Hheld. apply in_or_app. right. left. reflexivity.
  - exact (proj2 (inv_closes s' _ Hdead' Hinv (destroy_closes s'))).
Qed.

Lemma at_most_one_live_session_witness :
  let s := Sample.fresh Sample.flaky in
  let ops := [Execute (lit "nmap -sV 10.0.0.5 > /tmp/out.txt") 1800;
              Execute (lit "cat /etc/os-release > /tmp/out.txt") 1800;
              Execute (lit "id > /tmp/out.txt") 1800;
              RetrieveFile (lit "/tmp/out.txt")] in
  stays_dead (oracle_of s)
  /\ w_sessions (world (run_ops ops s)) = [2; 11]%nat
  /\ (length (live_sessions (world (run_ops ops s))) <= 1)%nat.
Proof.
  assert (Hdead : stays_dead (oracle_of (Sample.fresh Sample.flaky))).
  { intros t n m Hle. cbn. intros H.
    apply orb_false_iff in H as [Ht Hn]. rewrite Ht. cbn.
    apply Nat.leb_gt in Hn. apply Nat.leb_gt. lia. }
  split; [exact Hdead |]. split; [reflexivity |].
  exact (proj1 (at_most_one_live_session
                  (Sample.fresh Sample.flaky)
                  [Execute (lit "nmap -sV 10.0.0.5 > /tmp/out.txt") 1800;
                   Execute (lit "cat /etc/os-release > /tmp/out.txt") 1800;
                   Execute (lit "id > /tmp/out.txt") 1800;
                   RetrieveFile (lit "/tmp/out.txt")]
                  Hdead eq_refl eq_refl)).
Defined.

(** The run of the witness, step by step: the transport opened at moment 2
    dies, the third command opens the one of moment 11, [destroy] closes
    it, and a later command finds the closed client and raises. *)
Example sessions_along_a_run :
  let s := Sample.fresh Sample.flaky in
  let ops := [Execute (lit "a") 5; Execute (lit "b") 5; Execute (lit "c") 5;
              Destroy; Execute (lit "d") 5] in
  map (fun k => live_sessions (world (run_ops (firstn k ops) s)))
      [0; 1; 2; 3; 4; 5]%nat
  = [[]; [2]; []; [11]; []; []]%nat.
Proof. reflexivity. Qed.

(** ** More on [_ensure_connected] *)

Lemma ensure_connected_reuses_witness :
  fst (_ensure_connected Sample.connected) = Ret tt
  /\ issued _ensure_connected Sample.connected = [EIsActive 2%nat].
Proof.
  destruct (ensure_connected_reuses Sample.connected 2%nat eq_refl eq_refl)
    as (H1 & _ & H2).
  split; assumption.
Defined.



(** X5.  [self._ssh_client] is replaced only by a call that goes as far as
    asking for a connection: a call that asks for none (session reused,
    reload failed, port not published, key missing) leaves the client it
    found. *)
Theorem ensure_connected_keeps_client_without_connect (s : State) :
  List.filter is_connect (issued _ensure_connected s) = [] ->
  _ssh_client (self (snd (_ensure_connected s))) = _ssh_client (self s).
Proof.
  unfold issued, _ensure_connected. unfold_driver.
  crunch; try reflexivity; try congruence.
  all: drop_prefix; cbn; try discriminate.
Qed.

Lemma ensure_connected_keeps_client_witness :
  let s := Sample.fresh Sample.port_hidden in
  List.filter is_connect (issued _ensure_connected s) = []
  /\ _ssh_client (self (snd (_ensure_connected s))) = None.
Proof.
  split; [reflexivity |].
  exact (ensure_connected_keeps_client_without_connect
           (Sample.fresh Sample.port_hidden) eq_refl).
Defined.

(** ** More on [send_command_and_get_output] *)

(** X6.  Once [destroy] has run on a sandbox that had a client, the sandbox
    cannot run commands any more: every later call raises [AttributeError]
    at once, asks nothing of the outside world and changes nothing. *)
Theorem execute_after_destroy_unusable
  (s : State) (command : str) (timeout : Z) :
  _ssh_client (self s) <> None ->
  let s' := snd (destroy s) in
  fst (send_command_and_get_output command timeout s') = Raise AttributeError
  /\ issued (send_command_and_get_output command timeout) s' = []
  /\ snd (send_command_and_get_output command timeout s') = s'.
Proof.
  intros Hc s'.
  assert (Hstale : _ssh_client (self s') = Some {| _transport := None |}).
  { subst s'. unfold destroy. unfold_driver. cbn.
    destruct (_ssh_client (self s)) as [[[t |]] |] eqn:Hclient;
      [| | congruence]; cbn; rewrite ?Hclient; crunch;
      first [reflexivity | assumption]. }
  assert (Hrun : send_command_and_get_output command timeout s'
                 = (Raise AttributeError, s')).
  { unfold send_command_and_get_output.
    unfold bind at 1. rewrite (ensure_connected_stale_client s' Hstale).
    reflexivity. }
  unfold issued. rewrite Hrun. cbn. repeat split. apply drop_all.
Qed.

Lemma execute_after_destroy_witness :
  let s' := snd (destroy Sample.connected) in
  _ssh_client (self Sample.connected) <> None
  /\ fst (send_command_and_get_output (lit "id") 1800 s')
     = Raise AttributeError.
Proof.
  assert (H : _ssh_client (self Sample.connected) <> None) by discriminate.
  split; [exact H |].
  exact (proj1 (execute_after_destroy_unusable
                  Sample.connected (lit "id") 1800 H)).
Defined.

(** X7.  One call submits the command at most once, and what it submits is
    the caller's command with the caller's timeout, on the transport that
    [_ensure_connected] left on the client: there is no retry and no
    rewriting. *)
Theorem execute_submits_once (s : State) (command : str) (timeout : Z) :
  (length (List.filter is_exec_command
             (issued (send_command_and_get_output command timeout) s))
   <= 1)%nat
  /\ forall t c d ch,
       In (EExecCommand t c d ch)
          (issued (send_command_and_get_output command timeout) s) ->
       c = command /\ d = timeout
       /\ held (snd (_ensure_connected s)) = Some t.
Proof.
  unfold issued, held, send_command_and_get_output, _ensure_connected.
  unfold_driver.
  crunch.
  all: first [rewrite drop_all | rewrite drop_app_length | drop_prefix].
  all: split; [cbn; lia |].
  all: intros t' c' d' ch' Hin; cbn in Hin.
  all: repeat (destruct Hin as [Hin | Hin]; try discriminate;
               try (injection Hin as <- <- <- <-; repeat split; congruence)).
  all: try contradiction.
Qed.

(** ** More on [destroy] *)



(** X9.  When the engine accepts the reload, the stop and the removal,
    [destroy] returns and the container of the sandbox is no longer on the
    host; every other container is where it was. *)
Theorem destroy_removes_container (s : State) (a : Attrs) :
  env_inspect (oracle_of s) (now s) (self_cid s) = Ret a ->
  (forall n, env_stop (oracle_of s) n (self_cid s) = Ret tt) ->
  (forall n, env_remove (oracle_of s) n (self_cid s) true = Ret tt) ->
  fst (destroy s) = Ret PyNone
  /\ ~ In (self_cid s) (w_containers (world (snd (destroy s))))
  /\ forall c, c <> self_cid s ->
       (In c (w_containers (world (snd (destroy s))))
        <-> In c (w_containers (world s))).
Proof.
  intros Hq Hstop Hrm.
  assert (Hkeep : forall (c : string) l,
            In c (List.filter (fun c0 => negb (String.eqb c0 (self_cid s))) l)
            <-> In c l /\ c <> self_cid s).
  { intros c l. rewrite filter_In, negb_true_iff, String.eqb_neq. tauto. }
  unfold destroy. unfold_driver. cbn.
  destruct (_ssh_client (self s)) as [[[t |]] |] eqn:Hc; cbn;
    rewrite ?Hc; cbn; rewrite Hq; cbn.
  all: destruct (status_in_running_created (Status a)); cbn;
    rewrite ?Hstop; cbn; rewrite Hrm; cbn.
  all: split; [reflexivity |]; split;
    [ intros Hin; apply Hkeep in Hin; tauto
    | intros c Hne; rewrite Hkeep; tauto ].
Qed.

Lemma destroy_removes_container_witness :
  let s := Sample.fresh Sample.calm in
  In Sample.cid (w_containers (world s))
  /\ fst (destroy s) = Ret PyNone
  /\ ~ In Sample.cid (w_containers (world (snd (destroy s)))).
Proof.
  split; [left; reflexivity |].
  destruct (destroy_removes_container
              (Sample.fresh Sample.calm) Sample.running eq_refl
              (fun _ => eq_refl) (fun _ => eq_refl)) as (H1 & H2 & _).
  split; assumption.
Defined.

(** ** More on [copy_file_from_container] *)

(** X10.  The two classes the method catches never leave it: whatever it
    raises is neither a [NotFound] of the engine nor an [IndexError]. *)
Theorem copy_file_never_raises_not_found (s : State) (path : str) (e : exn) :
  fst (copy_file_from_container path s) = Raise e ->
  isinstance_NotFound e = false /\ isinstance_IndexError e = false.
Proof.
  unfold copy_file_from_container. unfold_driver.
  crunch; intros H; try discriminate.
  all: injection H as <-; split; try reflexivity; assumption.
Qed.

Lemma copy_file_never_raises_not_found_witness :
  fst (copy_file_from_container (lit "/tmp")
         (Sample.fresh Sample.directory_first)) = Raise AttributeError
  /\ isinstance_NotFound AttributeError = false
  /\ isinstance_IndexError AttributeError = false.
Proof.
  split; [reflexivity |].
  exact (copy_file_never_raises_not_found
           (Sample.fresh Sample.directory_first) (lit "/tmp")
           AttributeError eq_refl).
Defined.

(** X11.  Any other error is handed on unchanged: an error of the engine
    on the archive request, and an error of [tarfile] on what the engine
    sent (a stream that is no tar archive, an empty stream). *)
Theorem copy_file_other_errors_propagate (s : State) (path : str) (e : exn) :
  isinstance_NotFound e = false ->
  isinstance_IndexError e = false ->
  env_get_archive (oracle_of s) (now s) (self_cid s) path = Raise e
  \/ (exists bits,
        env_get_archive (oracle_of s) (now s) (self_cid s) path = Ret bits
        /\ env_tarfile_open (oracle_of s) (BytesIO_of_chunks bits) = inl e) ->
  fst (copy_file_from_container path s) = Raise e.
Proof.
  intros Hn Hi [Hget | (bits & Hget & Htar)];
    unfold copy_file_from_container; unfold_driver; cbn;
    rewrite Hget; cbn; rewrite ?Htar; cbn; rewrite Hn, Hi; reflexivity.
Qed.

Lemma copy_file_other_errors_propagate_witness :
  fst (copy_file_from_container (lit "/tmp/out.txt")
         (Sample.fresh Sample.not_a_tar)) = Raise ReadError.
Proof.
  apply copy_file_other_errors_propagate; [reflexivity | reflexivity |].
  right. exists [Sample.hello]. split; reflexivity.
Defined.

(** X12.  Retrieving a file is one archive request and nothing else: the
    sandbox object, the containers on the host and the sessions are left
    as they were, whatever the outcome. *)
Theorem copy_file_read_only (s : State) (path : str) :
  let s' := snd (copy_file_from_container path s) in
  self s' = self s
  /\ issued (copy_file_from_container path) s
     = [EGetArchive (self_cid s) path]
  /\ w_containers (world s') = w_containers (world s)
  /\ w_sessions (world s') = w_sessions (world s)
  /\ w_closed (world s') = w_closed (world s).
Proof.
  unfold issued, copy_file_from_container. unfold_driver.
  crunch; rewrite ?drop_app_length; repeat split.
Qed.

Lemma BytesIO_of_chunks_from (acc : list byte) (bits : list (list byte)) :
  fold_left (fun f chunk => (f ++ chunk)%list) bits acc
  = (acc ++ List.concat bits)%list.
Proof.
  revert acc. induction bits as [| c bits IH]; intros acc; cbn.
  - rewrite app_nil_r. reflexivity.
  - rewrite IH, <- app_assoc. reflexivity.
Qed.

(** The buffer holds the chunks end to end. *)
Lemma BytesIO_of_chunks_concat (bits : list (list byte)) :
  BytesIO_of_chunks bits = List.concat bits.
Proof. unfold BytesIO_of_chunks. apply BytesIO_of_chunks_from. Qed.

(** X13.  How the engine cuts the archive into chunks does not matter:
    two streams that carry the same bytes give the same result. *)
Theorem copy_file_chunking_irrelevant
  (s1 s2 : State) (path : str) (bits1 bits2 : list (list byte)) :
  env_tarfile_open (oracle_of s1) = env_tarfile_open (oracle_of s2) ->
  env_get_archive (oracle_of s1) (now s1) (self_cid s1) path = Ret bits1 ->
  env_get_archive (oracle_of s2) (now s2) (self_cid s2) path = Ret bits2 ->
  List.concat bits1 = List.concat bits2 ->
  fst (copy_file_from_container path s1)
  = fst (copy_file_from_container path s2).
Proof.
  intros Htar H1 H2 Hcat.
  unfold copy_file_from_container. unfold_driver. cbn.
  rewrite H1, H2. cbn. rewrite !BytesIO_of_chunks_concat, Hcat, Htar.
  destruct (env_tarfile_open (w_env (world s2)) (List.concat bits2))
    as [e | [| m l]]; cbn.
  - destruct (isinstance_NotFound e), (isinstance_IndexError e); reflexivity.
  - reflexivity.
  - destruct (extractfile m); cbn; try reflexivity.
    + rewrite decode_ignore. reflexivity.
    + destruct (isinstance_NotFound e), (isinstance_IndexError e); reflexivity.
Qed.

Lemma copy_file_chunking_irrelevant_witness :
  fst (copy_file_from_container (lit "/tmp/out.txt")
         (Sample.fresh (Sample.holding Sample.hello)))
  = fst (copy_file_from_container (lit "/tmp/out.txt")
           (Sample.fresh Sample.two_chunks)).
Proof.
  exact (copy_file_chunking_irrelevant
           (Sample.fresh (Sample.holding Sample.hello))
           (Sample.fresh Sample.two_chunks) (lit "/tmp/out.txt")
           [Sample.hello] [[x68; x65]; [x6c; x6c; x6f; x0a]]
           eq_refl eq_refl eq_refl eq_refl).
Defined.

Lemma strict_gives_chars (items : list Utf8Item) (text : str) :
  apply_errors Strict items = inr text ->
  chars_of items = text /\ invalid_count items = 0%nat.
Proof.
  rewrite apply_errors_strict.
  destruct (invalid_count items); intros H;
    [split; congruence | discriminate].
Qed.

(** X14.  For a file that is well-formed UTF-8, ['ignore'] loses nothing:
    the text returned is the text strict decoding gives (and the text
    decoding with substitution gives). *)
Theorem copy_file_well_formed_text
  (s : State) (path : str) (bits : list (list byte))
  (member : TarInfo) (others : list TarInfo) (data : list byte) (text : str) :
  env_get_archive (oracle_of s) (now s) (self_cid s) path = Ret bits ->
  env_tarfile_open (oracle_of s) (BytesIO_of_chunks bits)
  = inr (member :: others) ->
  extractfile member = FileObject data ->
  decode_utf8 Strict data = inr text ->
  fst (copy_file_from_container path s) = Ret (PyStr text)
  /\ decode_utf8 Replace data = inr text.
Proof.
  intros Hget Htar Hfile Hstrict.
  rewrite (copy_file_first_file s path bits member others data Hget Htar Hfile).
  unfold decode_utf8 in *.
  destruct (strict_gives_chars _ _ Hstrict) as [Hchars Hvalid].
  split; [congruence |].
  rewrite apply_errors_replace. f_equal. rewrite <- Hchars. symmetry.
  apply ignore_is_substitution_iff_valid. exact Hvalid.
Qed.

Lemma copy_file_well_formed_text_witness :
  fst (copy_file_from_container (lit "/tmp/out.txt")
         (Sample.fresh Sample.calm))
  = Ret (PyStr [104; 101; 108; 108; 111; 10]%N).
Proof.
  exact (proj1 (copy_file_well_formed_text
                  (Sample.fresh Sample.calm) (lit "/tmp/out.txt")
                  [Sample.hello]
                  {| name := "out.txt"; extractfile := FileObject Sample.hello |}
                  [] Sample.hello [104; 101; 108; 108; 111; 10]%N
                  eq_refl eq_refl eq_refl eq_refl)).
Defined.

Lemma utf8_scan_ascii (bs : list N) :
  Forall (fun b => (b < 128)%N) bs -> utf8_scan bs = map Char bs.
Proof.
  induction 1 as [| b bs Hb _ IH]; cbn [utf8_scan map].
  - reflexivity.
  - apply N.ltb_lt in Hb. rewrite Hb, IH. reflexivity.
Qed.

Lemma chars_of_map_Char (bs : list N) : chars_of (map Char bs) = bs.
Proof. induction bs as [| b bs IH]; cbn; [| rewrite IH]; reflexivity. Qed.

(** X15.  A file of ASCII bytes comes back byte for byte, one character
    for each byte. *)
Theorem copy_file_ascii_verbatim
  (s : State) (path : str) (bits : list (list byte))
  (member : TarInfo) (others : list TarInfo) (data : list byte) :
  env_get_archive (oracle_of s) (now s) (self_cid s) path = Ret bits ->
  env_tarfile_open (oracle_of s) (BytesIO_of_chunks bits)
  = inr (member :: others) ->
  extractfile member = FileObject data ->
  Forall (fun b => (Byte.to_N b < 128)%N) data ->
  fst (copy_file_from_container path s)
  = Ret (PyStr (map Byte.to_N data)).
Proof.
  intros Hget Htar Hfile Hascii.
  rewrite (copy_file_first_file s path bits member others data Hget Htar Hfile).
  rewrite utf8_scan_ascii, chars_of_map_Char; [reflexivity |].
  apply Forall_map. exact Hascii.
Qed.

Lemma copy_file_ascii_verbatim_witness :
  fst (copy_file_from_container (lit "/tmp/out.txt")
         (Sample.fresh Sample.calm))
  = Ret (PyStr (map Byte.to_N Sample.hello)).
Proof.
  apply (copy_file_ascii_verbatim
           (Sample.fresh Sample.calm) (lit "/tmp/out.txt") [Sample.hello]
           {| name := "out.txt"; extractfile := FileObject Sample.hello |}
           [] Sample.hello eq_refl eq_refl eq_refl).
  repeat constructor.
Defined.

Lemma chars_of_scan_length (n : nat) :
  forall bs : list N,
    (length bs <= n)%nat ->
    (length (chars_of (utf8_scan bs)) <= length bs)%nat.
Proof.
  induction n as [| n IH]; intros bs Hn.
  - destruct bs; [cbn; lia | cbn in Hn; lia].
  - destruct bs as [| b0 t0]; [cbn; lia |].
    cbn [utf8_scan].
    assert (H0 := IH t0).
    destruct t0 as [| b1 t1].
    { repeat (destruct (_ <? _)%N); cbn; lia. }
    assert (H1 := IH t1).
    destruct t1 as [| b2 t2].
    { repeat first [destruct (_ <? _)%N | destruct (is_continuation _)
                   | destruct (bad_second3 _ _) | destruct (bad_second4 _ _)];
        cbn [chars_of length] in *; try lia;
        try (specialize (H0 ltac:(cbn in *; lia)); cbn in H0; lia). }
    assert (H2 := IH t2).
    destruct t2 as [| b3 t3].
    { repeat first [destruct (_ <? _)%N | destruct (is_continuation _)
                   | destruct (bad_second3 _ _) | destruct (bad_second4 _ _)
                   | destruct (negb _)];
        cbn [chars_of length] in *; try lia;
        try (specialize (H0 ltac:(cbn in *; lia)); cbn [length] in H0; lia);
        try (specialize (H1 ltac:(cbn in *; lia)); cbn [length] in H1; lia). }
    assert (H3 := IH t3).
    cbn [length] in *.
    specialize (H0 ltac:(lia)). specialize (H1 ltac:(lia)).
    specialize (H2 ltac:(lia)). specialize (H3 ltac:(lia)).
    repeat first [destruct (_ <? _)%N | destruct (is_continuation _)
                 | destruct (bad_second3 _ _) | destruct (bad_second4 _ _)
                 | destruct (negb _)];
      cbn [chars_of length] in *; lia.
Qed.

(** X16.  The text returned never has more characters than the file has
    bytes. *)
Theorem copy_file_text_no_longer_than_file
  (s : State) (path : str) (bits : list (list byte))
  (member : TarInfo) (others : list TarInfo) (data : list byte) :
  env_get_archive (oracle_of s) (now s) (self_cid s) path = Ret bits ->
  env_tarfile_open (oracle_of s) (BytesIO_of_chunks bits)
  = inr (member :: others) ->
  extractfile member = FileObject data ->
  exists text,
    fst (copy_file_from_container path s) = Ret (PyStr text)
    /\ (length text <= length data)%nat.
Proof.
  intros Hget Htar Hfile.
  rewrite (copy_file_first_file s path bits member others data Hget Htar Hfile).
  eexists. split; [reflexivity |].
  rewrite <- (length_map Byte.to_N data).
  apply (chars_of_scan_length (length (map Byte.to_N data))). lia.
Qed.

Lemma copy_file_text_no_longer_than_file_witness :
  exists text,
    fst (copy_file_from_container (lit "/tmp/out.txt")
           (Sample.fresh (Sample.holding [x61; xff; x62])))
    = Ret (PyStr text)
    /\ (length text <= 3)%nat.
Proof.
  exact (copy_file_text_no_longer_than_file
           (Sample.fresh (Sample.holding [x61; xff; x62]))
           (lit "/tmp/out.txt") [[x61; xff; x62]]
           {| name := "out.txt"; extractfile := FileObject [x61; xff; x62] |}
           [] [x61; xff; x62] eq_refl eq_refl eq_refl).
Defined.

(** ** More on the constructors *)

(** X17.  Once the engine has created the container, [create_container]
    never asks for it to be stopped or removed: the container is on the
    host whether the constructor returns or raises.  When it returns, the
    sandbox belongs to the manager, has no client yet and carries the id
    the engine gave, with its first twelve characters as the short id. *)
Theorem create_container_outcome (m : KaliManager) (w : World)
  (cid : string) (a : Attrs) :
  env_create (w_env w) (w_clock w) = Ret (cid, a) ->
  let out := create_container m w in
  In cid (w_containers (snd out))
  /\ List.filter is_teardown
       (drop (length (w_trace w)) (w_trace (snd out))) = []
  /\ forall kc, fst out = Ret kc ->
       _owner kc = m /\ _ssh_client kc = None /\ kc_id kc = cid
       /\ kc_short_id kc = substring 0 12 cid
       /\ c_id (_container kc) = cid.
Proof.
  intros Hc.
  unfold create_container, KaliContainer_init, containers_create, as_self,
    _ensure_started, c_short_id.
  unfold_driver. cbn. rewrite Hc. cbn.
  crunch.
  all: split; [apply in_or_app; right; left; reflexivity |].
  all: split; [drop_prefix; reflexivity |].
  all: intros kc Hkc; try discriminate.
  all: injection Hkc as <-; cbn; repeat split.
Qed.

Lemma create_container_outcome_witness :
  let out := create_container Sample.manager
               (Sample.empty_world Sample.start_fails) in
  fst out = Raise APIError
  /\ In Sample.cid (w_containers (snd out)).
Proof.
  split; [reflexivity |].
  exact (proj1 (create_container_outcome
                  Sample.manager (Sample.empty_world Sample.start_fails)
                  Sample.cid Sample.created eq_refl)).
Defined.

Lemma filter_other_ids (cid : string) (l : list string) :
  ~ In cid l ->
  List.filter (fun c => negb (String.eqb c cid)) l = l.
Proof.
  induction l as [| c l IH]; intros Hnot; cbn; [reflexivity |].
  destruct (String.eqb_spec c cid) as [-> | Hne]; cbn.
  - destruct Hnot. left. reflexivity.
  - rewrite IH; [reflexivity |]. intros Hin. apply Hnot. right. exact Hin.
Qed.

(** X18.  With an engine that accepts every request, creating a sandbox
    and destroying it leaves the host with the containers it had. *)
Theorem create_then_destroy_leaves_host_clean
  (m : KaliManager) (w : World) (cid : string) (a : Attrs)
  (inspected : nat -> Attrs) :
  ~ In cid (w_containers w) ->
  env_create (w_env w) (w_clock w) = Ret (cid, a) ->
  (forall n, env_inspect (w_env w) n cid = Ret (inspected n)) ->
  (forall n, env_start (w_env w) n cid = Ret tt) ->
  (forall n, env_stop (w_env w) n cid = Ret tt) ->
  (forall n, env_remove (w_env w) n cid true = Ret tt) ->
  exists kc w1,
    create_container m w = (Ret kc, w1)
    /\ fst (destroy {| self := kc; world := w1 |}) = Ret PyNone
    /\ w_containers (world (snd (destroy {| self := kc; world := w1 |})))
       = w_containers w.
Proof.
  intros Hnew Hc Hi Hstart Hstop Hrm.
  assert (Hclean :
    List.filter (fun c => negb (String.eqb c cid)) (w_containers w ++ [cid])
    = w_containers w).
  { rewrite List.filter_app, (filter_other_ids cid _ Hnew). cbn.
    rewrite String.eqb_refl. cbn. apply app_nil_r. }
  unfold create_container, KaliContainer_init, containers_create, as_self,
    _ensure_started, c_short_id, destroy.
  unfold_driver. cbn. rewrite Hc. cbn. rewrite !Hi. cbn.
  destruct (negb (Status (inspected (S (w_clock w))) =? "running")%string);
    cbn; rewrite ?Hstart; cbn; rewrite !Hi; cbn.
  all: eexists _, _; split; [reflexivity |]; cbn; rewrite !Hi; cbn.
  all: destruct (status_in_running_created _); cbn;
    rewrite ?Hstop; cbn; rewrite Hrm; cbn.
  all: split; [reflexivity | exact Hclean].
Qed.

Lemma create_then_destroy_witness :
  exists kc w1,
    create_container Sample.manager (Sample.empty_world Sample.calm)
    = (Ret kc, w1)
    /\ fst (destroy {| self := kc; world := w1 |}) = Ret PyNone
    /\ w_containers (world (snd (destroy {| self := kc; world := w1 |})))
       = [].
Proof.
  exact (create_then_destroy_leaves_host_clean
           Sample.manager (Sample.empty_world Sample.calm)
           Sample.cid Sample.created (fun _ => Sample.running)
           (fun H => H) eq_refl (fun _ => eq_refl) (fun _ => eq_refl)
           (fun _ => eq_refl) (fun _ => eq_refl)).
Defined.

(** X19.  A manager comes out exactly when the client could be built and
    the engine answered the ping. *)
Theorem manager_init_succeeds_iff (w : World) :
  (exists m, fst (KaliManager_init w) = Ret m)
  <-> env_from_env (w_env w) (w_clock w) = Ret tt
      /\ env_ping (w_env w) (S (w_clock w)) = Ret tt.
Proof.
  unfold KaliManager_init, docker_from_env, DockerClient_ping.
  unfold_world. cbn.
  destruct (env_from_env _ _) as [[] | e |]; cbn.
  - destruct (env_ping _ _) as [[] | e |]; cbn; split.
    + intros _. split; reflexivity.
    + intros _. eexists. reflexivity.
    + intros [m H]. discriminate.
    + intros [_ H]. discriminate.
    + intros [m H]. discriminate.
    + intros [_ H]. discriminate.
  - split; [intros [m H] | intros [H _]]; discriminate.
  - split; [intros [m H] | intros [H _]]; discriminate.
Qed.

(** ** [_clean_json_response] *)

Lemma dot_star_close_none (l : str) :
  ~ In RBRACE l -> dot_star_close l = None.
Proof.
  induction l as [| c t IH]; intros Hno; cbn; [reflexivity |].
  rewrite IH by (intros H; apply Hno; right; exact H).
  destruct (N.eqb_spec c RBRACE) as [-> | _]; [| reflexivity].
  destruct Hno. left. reflexivity.
Qed.

Lemma dot_star_close_none_inv (l : str) :
  dot_star_close l = None -> ~ In RBRACE l.
Proof.
  induction l as [| c t IH]; intros H Hin; [destruct Hin |].
  cbn in H. destruct (dot_star_close t) eqn:Ht; [discriminate |].
  destruct (N.eqb_spec c RBRACE) as [-> | Hc]; [discriminate |].
  destruct Hin as [Heq | Hin]; [congruence | exact (IH eq_refl Hin)].
Qed.

(** Greedy: the match runs to the last closing brace. *)
Lemma dot_star_close_last (body post : str) :
  ~ In RBRACE post ->
  dot_star_close (body ++ RBRACE :: post)%list = Some (body ++ [RBRACE])%list.
Proof.
  intros Hno. induction body as [| c body IH]; cbn.
  - rewrite (dot_star_close_none post Hno). reflexivity.
  - rewrite IH. reflexivity.
Qed.

Lemma dot_star_close_some (l m : str) :
  dot_star_close l = Some m ->
  exists body post,
    m = (body ++ [RBRACE])%list /\ l = (m ++ post)%list /\ ~ In RBRACE post.
Proof.
  revert m. induction l as [| c t IH]; intros m H; cbn in H; [discriminate |].
  destruct (dot_star_close t) as [m' |] eqn:Ht.
  - injection H as <-.
    destruct (IH m' eq_refl) as (body & post & -> & -> & Hno).
    exists (c :: body), post. repeat split. exact Hno.
  - destruct (N.eqb_spec c RBRACE) as [-> | _]; [| discriminate].
    injection H as <-. exists [], t. repeat split.
    exact (dot_star_close_none_inv t Ht).
Qed.

(** Leftmost: text without an opening brace is stepped over. *)
Lemma re_search_skips (pre rest : str) :
  ~ In LBRACE pre -> re_search (pre ++ rest)%list = re_search rest.
Proof.
  induction pre as [| c pre IH]; intros Hno; [reflexivity |].
  cbn [app re_search match_here].
  destruct (N.eqb_spec c LBRACE) as [-> | _].
  - destruct Hno. left. reflexivity.
  - apply IH. intros H. apply Hno. right. exact H.
Qed.

Lemma re_search_needs_close (s m : str) :
  re_search s = Some m -> In RBRACE s.
Proof.
  revert m. induction s as [| c t IH]; intros m H; [discriminate |].
  cbn [re_search match_here] in H.
  destruct (N.eqb c LBRACE).
  - destruct (dot_star_close t) as [m' |] eqn:Ht.
    + destruct (dot_star_close_some t m' Ht) as (body & post & -> & -> & _).
      right. apply in_or_app. left. apply in_or_app. right. left. reflexivity.
    + right. exact (IH m H).
  - right. exact (IH m H).
Qed.

Lemma re_search_wrapped (pre body post : str) :
  ~ In LBRACE pre -> ~ In RBRACE post ->
  re_search (pre ++ LBRACE :: body ++ RBRACE :: post)%list
  = Some (LBRACE :: body ++ [RBRACE])%list.
Proof.
  intros Hpre Hpost.
  rewrite (re_search_skips pre _ Hpre).
  cbn [re_search match_here]. cbn [N.eqb LBRACE Pos.eqb].
  rewrite (dot_star_close_last body post Hpost). reflexivity.
Qed.

Lemma re_search_shape (s m : str) :
  re_search s = Some m ->
  exists pre body post,
    s = (pre ++ m ++ post)%list
    /\ m = (LBRACE :: body ++ [RBRACE])%list
    /\ ~ In LBRACE pre /\ ~ In RBRACE post.
Proof.
  revert m. induction s as [| c t IH]; intros m H; [discriminate |].
  cbn [re_search match_here] in H.
  destruct (N.eqb_spec c LBRACE) as [-> | Hc].
  - destruct (dot_star_close t) as [m' |] eqn:Ht.
    + injection H as <-.
      destruct (dot_star_close_some t m' Ht) as (body & post & -> & -> & Hno).
      exists [], body, post. repeat split; [intros [] | exact Hno].
    + pose proof (re_search_needs_close t m H) as Hin.
      destruct (dot_star_close_none_inv t Ht Hin).
  - destruct (IH m H) as (pre & body & post & -> & -> & Hpre & Hpost).
    exists (c :: pre), body, post. repeat split; [| exact Hpost].
    intros [Heq | Hin]; [congruence | exact (Hpre Hin)].
Qed.

(** Decides a goal [~ In c text] on a text that is written out. *)
Ltac not_in_text :=
  let H := fresh in
  intros H; vm_compute in H;
  repeat (destruct H as [H | H]; [discriminate |]); exact H.

(** X20.  Text around a JSON object is stripped: with no opening brace
    before the object and no closing brace after it (a Markdown fence, a
    sentence of introduction), what comes out is the object, braces
    included. *)
Theorem clean_json_strips_wrapping (pre body post : str) :
  ~ In LBRACE pre -> ~ In RBRACE post ->
  _clean_json_response (pre ++ LBRACE :: body ++ RBRACE :: post)%list
  = (LBRACE :: body ++ [RBRACE])%list.
Proof.
  intros Hpre Hpost. unfold _clean_json_response.
  rewrite (re_search_wrapped pre body post Hpre Hpost). reflexivity.
Qed.

Lemma clean_json_strips_wrapping_witness :
  _clean_json_response AgentSample.fenced = AgentSample.object.
Proof.
  apply (clean_json_strips_wrapping
           AgentSample.fence_open AgentSample.object_body
           AgentSample.fence_close); not_in_text.
Defined.

(** X21.  What comes out is the reply itself, or the stretch of the reply
    from its first opening brace to its last closing brace: it starts and
    ends with a brace, nothing before it holds an opening brace and
    nothing after it a closing one.  Two objects in one reply therefore
    come out as one stretch. *)
Theorem clean_json_extracts_outermost_braces (s : str) :
  _clean_json_response s = s
  \/ exists pre body post,
       s = (pre ++ _clean_json_response s ++ post)%list
       /\ _clean_json_response s = (LBRACE :: body ++ [RBRACE])%list
       /\ ~ In LBRACE pre /\ ~ In RBRACE post.
Proof.
  unfold _clean_json_response.
  destruct (re_search s) as [m |] eqn:Hs; [right | left; reflexivity].
  exact (re_search_shape s m Hs).
Qed.

(** X22.  Cleaning twice is cleaning once. *)
Theorem clean_json_idempotent (s : str) :
  _clean_json_response (_clean_json_response s) = _clean_json_response s.
Proof.
  unfold _clean_json_response at 2 3.
  destruct (re_search s) as [m |] eqn:Hs.
  - destruct (re_search_shape s m Hs) as (_ & body & _ & _ & -> & _).
    unfold _clean_json_response.
    pose proof (re_search_wrapped [] body [] (fun H => H) (fun H => H)) as Hw.
    cbn [app] in Hw. rewrite Hw. reflexivity.
  - unfold _clean_json_response. rewrite Hs. reflexivity.
Qed.

(** X23.  A reply without an opening brace, or without a closing brace,
    goes through unchanged. *)
Theorem clean_json_unchanged_without_object (s : str) :
  ~ In LBRACE s \/ ~ In RBRACE s -> _clean_json_response s = s.
Proof.
  intros H. unfold _clean_json_response.
  destruct (re_search s) as [m |] eqn:Hs; [| reflexivity].
  destruct (re_search_shape s m Hs)
    as (pre & body & post & Heq & -> & _ & _).
  destruct H as [H | H]; destruct H; rewrite Heq; apply in_or_app; right.
  - left. reflexivity.
  - apply in_or_app. left. right. apply in_or_app. right. left. reflexivity.
Qed.

Lemma clean_json_unchanged_without_object_witness :
  _clean_json_response (lit "I cannot help with that.")
  = lit "I cannot help with that.".
Proof.
  apply clean_json_unchanged_without_object. left. not_in_text.
Defined.

(** ** [ThoughtEngine._format_plan] *)

Lemma str_join_app (sep : str) (p q : list str) :
  p <> [] -> q <> [] ->
  str_join sep (p ++ q)%list
  = (str_join sep p ++ sep ++ str_join sep q)%list.
Proof.
  intros Hp Hq. induction p as [| a p IH]; [congruence |].
  destruct p as [| b p].
  - destruct q as [| c q]; [congruence | reflexivity].
  - change (str_join sep ((a :: b :: p) ++ q)%list)
      with (a ++ sep ++ str_join sep ((b :: p) ++ q))%list.
    rewrite IH by discriminate.
    change (str_join sep (a :: b :: p))
      with (a ++ sep ++ str_join sep (b :: p))%list.
    rewrite <- !app_assoc. reflexivity.
Qed.

(** X24.  The text of a plan made of two parts, neither of them empty, is
    the text of the first, a line end, and the text of the second: one
    line for each task, in the order of the plan. *)
Theorem format_plan_app (p q : list TaskNode) :
  p <> [] -> q <> [] ->
  _format_plan (p ++ q)%list
  = (_format_plan p ++ NEWLINE ++ _format_plan q)%list.
Proof.
  intros Hp Hq. unfold _format_plan.
  destruct p as [| a p]; [congruence |]. destruct q as [| b q]; [congruence |].
  cbn [app]. change (a :: (p ++ b :: q)%list) with ((a :: p) ++ b :: q)%list.
  rewrite map_app. apply str_join_app; discriminate.
Qed.

Lemma format_plan_app_witness :
  _format_plan (AgentSample.plan ++ AgentSample.plan)%list
  = (_format_plan AgentSample.plan ++ NEWLINE
     ++ _format_plan AgentSample.plan)%list.
Proof.
  apply format_plan_app; discriminate.
Defined.

(** ** [ThoughtEngine.choose_next_action] and [get_completed_task_ids] *)

Section MethodFacts.

Context {Dict : Type} (deps : Deps Dict) (self : ThoughtEngine).

(** X25.  When the history can be written as JSON, [choose_next_action]
    raises neither of the two classes its handler names, and a selection
    it returns is one the validator accepted or the fixed selection
    [finish_mission]. *)
Theorem choose_next_action_contains_invalid_json
  (goal : str) (plan : list TaskNode) (history : list Dict)
  (log : list LogRecord) (history_json : str) :
  json_dumps_history deps history = inr history_json ->
  (forall e, fst (choose_next_action deps self goal plan history log)
             = Raised e -> is_invalid_json e = false)
  /\ (forall selection,
        fst (choose_next_action deps self goal plan history log)
        = Returned selection ->
        selection = FINISH_MISSION
        \/ exists cleaned,
             ToolSelection_model_validate_json deps cleaned = inr selection).
Proof.
  intros Hj. unfold choose_next_action. rewrite Hj.
  destruct (chat_completions_create _ _) as [e | choices].
  - destruct (is_invalid_json e) eqn:He; cbn; split; intros x H;
      try discriminate; injection H as <-; auto.
  - destruct (cleaned_first_content choices) as [e | cleaned].
    + destruct (is_invalid_json e) eqn:He; cbn; split; intros x H;
        try discriminate; injection H as <-; auto.
    + destruct (ToolSelection_model_validate_json deps cleaned)
        as [e | sel] eqn:Hv.
      * destruct (is_invalid_json e) eqn:He; cbn; split; intros x H;
          try discriminate; injection H as <-; auto.
      * cbn. split; intros x H; try discriminate. injection H as <-.
        right. exists cleaned. exact Hv.
Qed.

(** X26.  The validator is shown the object, not the reply: for a reply
    that wraps an object in text free of the matching braces, the outcome
    is what the validator makes of the bare object, with a validation
    failure turned into [finish_mission]. *)
Theorem choose_next_action_reads_wrapped_object
  (goal : str) (plan : list TaskNode) (history : list Dict)
  (log : list LogRecord) (history_json : str)
  (pre body post : str) (others : list (option str)) :
  json_dumps_history deps history = inr history_json ->
  chat_completions_create deps
    (next_action_request deps self goal plan history_json)
  = inr (Some (pre ++ LBRACE :: body ++ RBRACE :: post)%list :: others) ->
  ~ In LBRACE pre -> ~ In RBRACE post ->
  fst (choose_next_action deps self goal plan history log)
  = match ToolSelection_model_validate_json deps
            (LBRACE :: body ++ [RBRACE])%list with
    | inr selection => Returned selection
    | inl e => if is_invalid_json e then Returned FINISH_MISSION else Raised e
    end.
Proof.
  intros Hj Hc Hpre Hpost. unfold choose_next_action. rewrite Hj, Hc.
  cbn [cleaned_first_content]. unfold _clean_json_response.
  rewrite (re_search_wrapped pre body post Hpre Hpost).
  destruct (ToolSelection_model_validate_json deps _) as [e | sel];
    [destruct (is_invalid_json e) |]; reflexivity.
Qed.

(** X27.  A reply without content is not treated as invalid JSON: with a
    first choice whose content is [None] the call raises [TypeError], with
    no choice at all it raises [IndexError]; in both cases nothing is
    logged after the opening line and no [finish_mission] comes out. *)
Theorem choose_next_action_reply_without_content
  (goal : str) (plan : list TaskNode) (history : list Dict)
  (log : list LogRecord) (history_json : str) (others : list (option str)) :
  json_dumps_history deps history = inr history_json ->
  (chat_completions_create deps
     (next_action_request deps self goal plan history_json)
   = inr (None :: others) ->
   choose_next_action deps self goal plan history log
   = (Raised TypeError,
      (log ++ [ {| level := INFO; message := THINKING |} ])%list))
  /\ (chat_completions_create deps
        (next_action_request deps self goal plan history_json)
      = inr [] ->
      choose_next_action deps self goal plan history log
      = (Raised ListIndexError,
         (log ++ [ {| level := INFO; message := THINKING |} ])%list)).
Proof.
  intros Hj. split; intros Hc; unfold choose_next_action;
    rewrite Hj, Hc; reflexivity.
Qed.

(** X28.  When the last entry of the history can be written as JSON (or
    the history is empty), [get_completed_task_ids] raises neither of the
    two classes its handler names, and the list it returns is the one the
    validator read or the empty list. *)
Theorem get_completed_task_ids_contains_invalid_json
  (goal : str) (plan : list TaskNode) (history : list Dict)
  (log : list LogRecord) (last_json : str) :
  last_entry_json deps history = inr last_json ->
  (forall e, fst (get_completed_task_ids deps goal plan history log)
             = Raised e -> is_invalid_json e = false)
  /\ (forall ids,
        fst (get_completed_task_ids deps goal plan history log)
        = Returned ids ->
        ids = []
        \/ exists cleaned update,
             PlanUpdate_model_validate_json deps cleaned = inr update
             /\ ids = completed_task_ids update).
Proof.
  intros Hj. unfold get_completed_task_ids. rewrite Hj.
  destruct (chat_completions_create _ _) as [e | choices].
  - destruct (is_invalid_json e) eqn:He; cbn; split; intros x H;
      try discriminate; injection H as <-; auto.
  - destruct (cleaned_first_content choices) as [e | cleaned].
    + destruct (is_invalid_json e) eqn:He; cbn; split; intros x H;
        try discriminate; injection H as <-; auto.
    + destruct (PlanUpdate_model_validate_json deps cleaned)
        as [e | u] eqn:Hv.
      * destruct (is_invalid_json e) eqn:He; cbn; split; intros x H;
          try discriminate; injection H as <-; auto.
      * cbn. split; intros x H; try discriminate. injection H as <-.
        right. exists cleaned, u. split; [exact Hv | reflexivity].
Qed.

(** X29.  Of the history only the most recent entry is used, and the goal
    is not used at all: two calls that agree on the plan and on the last
    entry do the same. *)
Theorem get_completed_task_ids_reads_last_entry_only
  (goal1 goal2 : str) (plan : list TaskNode) (older1 older2 : list Dict)
  (entry : Dict) (log : list LogRecord) :
  get_completed_task_ids deps goal1 plan (older1 ++ [entry])%list log
  = get_completed_task_ids deps goal2 plan (older2 ++ [entry])%list log.
Proof.
  unfold get_completed_task_ids, last_entry_json.
  rewrite !rev_app_distr. reflexivity.
Qed.

End MethodFacts.

Lemma choose_next_action_contains_invalid_json_witness :
  let deps :=
    AgentSample.deps_replying (inr [Some (lit "Sorry, no JSON today.")]) in
  fst (choose_next_action deps AgentSample.engine (lit "Map the network")
         AgentSample.plan [] [])
  = Returned FINISH_MISSION
  /\ (FINISH_MISSION = FINISH_MISSION
      \/ exists cleaned,
           ToolSelection_model_validate_json deps cleaned
           = inr FINISH_MISSION).
Proof.
  split; [reflexivity |].
  exact (proj2 (choose_next_action_contains_invalid_json
                  (AgentSample.deps_replying
                     (inr [Some (lit "Sorry, no JSON today.")]))
                  AgentSample.engine (lit "Map the network")
                  AgentSample.plan [] [] [] eq_refl)
               FINISH_MISSION eq_refl).
Defined.

Lemma choose_next_action_reads_wrapped_object_witness :
  fst (choose_next_action
         (AgentSample.deps_replying (inr [Some AgentSample.fenced]))
         AgentSample.engine (lit "Map the network") AgentSample.plan [] [])
  = Returned AgentSample.nmap.
Proof.
  refine (choose_next_action_reads_wrapped_object
            (AgentSample.deps_replying (inr [Some AgentSample.fenced]))
            AgentSample.engine (lit "Map the network") AgentSample.plan
            [] [] [] AgentSample.fence_open AgentSample.object_body
            AgentSample.fence_close [] eq_refl eq_refl _ _); not_in_text.
Defined.

Lemma choose_next_action_reply_without_content_witness :
  fst (choose_next_action (AgentSample.deps_replying (inr [None]))
         AgentSample.engine (lit "Map the network") AgentSample.plan [] [])
  = Raised TypeError.
Proof.
  exact (f_equal fst
           (proj1 (choose_next_action_reply_without_content
                     (AgentSample.deps_replying (inr [None]))
                     AgentSample.engine (lit "Map the network")
                     AgentSample.plan [] [] [] [] eq_refl)
                  eq_refl)).
Defined.

Lemma get_completed_task_ids_contains_invalid_json_witness :
  let deps := AgentSample.deps_replying (inr [Some AgentSample.fenced]) in
  last_entry_json deps [] = inr (lit "No actions yet.")
  /\ fst (get_completed_task_ids deps (lit "Map the network")
            AgentSample.plan [] [])
     = Returned []
  /\ ([] = ([] : list Z)
      \/ exists cleaned update,
           PlanUpdate_model_validate_json deps cleaned = inr update
           /\ [] = completed_task_ids update).
Proof.
  split; [reflexivity |]. split; [reflexivity |].
  exact (proj2 (get_completed_task_ids_contains_invalid_json
                  (AgentSample.deps_replying (inr [Some AgentSample.fenced]))
                  (lit "Map the network") AgentSample.plan [] []
                  (lit "No actions yet.") eq_refl)
               [] eq_refl).
Defined.
